(** * pdf_convert: the HTML-to-PDF server (server.js)

    A shallow embedding of [generatePDF] (the retry loop around one
    browser session per attempt) and of the [POST /html-to-pdf] handler,
    together with the properties of the retry, cleanup, option-merging
    and validation logic.

    The browser engine (puppeteer) is not part of the repository.  It is
    modelled as a scripted double: a function from the ordinal of a
    [puppeteer.launch] call to the behaviour of that session.  All
    statements quantify over every such double. *)

From Stdlib Require Import ZArith String Ascii List Lia.
From Stdlib Require Import SpecFloat.
From stdpp Require Import gmap strings list fin_maps pretty.

Set Warnings "-register-all".
Open Scope Z_scope.

(* ===================================================================== *)
(** ** JavaScript values *)
(* ===================================================================== *)

(** The values a JSON request body can hold, plus [undefined].  Numbers
    are IEEE-754 doubles; objects are finite maps from property names to
    values (own enumerable data properties). *)
Inductive JsVal : Type :=
| JUndefined
| JNull
| JBool (b : bool)
| JNum (x : spec_float)
| JStr (s : string)
| JArr (l : list JsVal)
| JObj (m : gmap string JsVal).

(** The double nearest to an integer. *)
Definition num_of_Z (z : Z) : JsVal := JNum (binary_normalize 53 1024 z 0 false).

Definition num_of_nat (n : nat) : JsVal := num_of_Z (Z.of_nat n).

(** ToBoolean: [undefined], [null], [false], [+0], [-0], [NaN] and the
    empty string are falsy, every other value is truthy. *)
Definition truthy (v : JsVal) : bool :=
  match v with
  | JUndefined | JNull => false
  | JBool b => b
  | JNum (S754_zero _) | JNum S754_nan => false
  | JNum _ => true
  | JStr EmptyString => false
  | JStr _ => true
  | JArr _ | JObj _ => true
  end.

(** The properties an object spread [{...v}] copies: the own enumerable
    properties of [v].  Arrays and strings contribute their indices;
    [undefined], [null], numbers and booleans contribute nothing. *)
Definition indexed (l : list JsVal) : gmap string JsVal :=
  list_to_map (imap (fun i v => (pretty i, v)) l).

Definition chars (s : string) : list JsVal :=
  List.map (fun c => JStr (String c EmptyString)) (list_ascii_of_string s).

Definition own_props (v : JsVal) : gmap string JsVal :=
  match v with
  | JObj m => m
  | JArr l => indexed l
  | JStr s => indexed (chars s)
  | _ => ∅
  end.

(** A default parameter or destructuring default [x = d]: used only when
    the supplied value is [undefined]. *)
Definition default_param (v d : JsVal) : JsVal :=
  match v with
  | JUndefined => d
  | _ => v
  end.

(** Error objects: what the engine rejects with and what the runtime
    throws. *)
Record JsError := mkError { err_name : string; message : string }.

Definition TypeError (msg : string) : JsError := mkError "TypeError" msg.

Definition err_val (e : JsError) : JsVal :=
  JObj {[ "name" := JStr (err_name e); "message" := JStr (message e) ]}.

(** The result of [page.pdf]: a byte buffer. *)
Abbreviation Buffer := (list Byte.byte).

(** ToString as performed by a template literal [`${v}`] throws a
    TypeError exactly when the conversion meets an object that cannot be
    converted to a primitive.  For values parsed from JSON that is an
    object with an own [toString] property (never callable, and
    [Object.prototype.valueOf] returns the object itself), reached
    directly or through the elements of arrays ([Array.prototype.join]). *)
Fixpoint toString_throws (v : JsVal) : bool :=
  match v with
  | JArr l => existsb toString_throws l
  | JObj m => bool_decide (is_Some (m !! "toString"))
  | _ => false
  end.

(* ===================================================================== *)
(** ** Effects: a state and exception monad *)
(* ===================================================================== *)

Inductive Res (A : Type) : Type :=
| Ok (a : A)
| Throw (e : JsError).
Arguments Ok {A} a.
Arguments Throw {A} e.

Definition M (S A : Type) : Type := S -> Res A * S.

#[export] Instance M_ret {S} : MRet (M S) :=
  fun A (a : A) s => (Ok a, s).

#[export] Instance M_bind {S} : MBind (M S) :=
  fun A B (k : A -> M S B) (m : M S A) s =>
    match m s with
    | (Ok a, s') => k a s'
    | (Throw e, s') => (Throw e, s')
    end.

Definition throw {S A} (e : JsError) : M S A := fun s => (Throw e, s).

Definition gets {S A} (f : S -> A) : M S A := fun s => (Ok (f s), s).

Definition modify {S} (f : S -> S) : M S unit := fun s => (Ok tt, f s).

(** [try { m } catch (error) { h error }] *)
Definition try_catch {S A} (m : M S A) (h : JsError -> M S A) : M S A :=
  fun s =>
    match m s with
    | (Ok a, s') => (Ok a, s')
    | (Throw e, s') => h e s'
    end.

(** [try { m } finally { f }]: [f] runs on every exit of [m]; the
    completion of [m] stands unless [f] itself throws. *)
Definition try_finally {S A} (m : M S A) (f : M S unit) : M S A :=
  fun s =>
    let '(r, s') := m s in
    match f s' with
    | (Ok _, s'') => (r, s'')
    | (Throw e, s'') => (Throw e, s'')
    end.

(** Lifting a computation on a component of the state. *)
Definition zoom {S T A} (get : S -> T) (set : T -> S -> S) (m : M T A) : M S A :=
  fun s => let '(r, t) := m (get s) in (r, set t s).

(* ===================================================================== *)
(** ** The world: engine resources and the trace of effects *)
(* ===================================================================== *)

Inductive Level := LOG | ERROR | WARN.

(** Observable effects, in the order they happen.  A console call keeps
    its message text and the values it prints. *)
Inductive Event : Type :=
| Console (lvl : Level) (text : string) (args : list JsVal)
| Launch (sid : nat)
| NewPage (sid : nat)
| SetContent (sid : nat) (html : JsVal)
| SetTimeout (ms : Z)
| PdfExport (sid : nat) (pdfOptions : gmap string JsVal)
| IsClosed (sid : nat)
| PageClose (sid : nat)
| BrowserClose (sid : nat).

(** How a [close()] call behaves: whether it rejects, and whether the
    resource is in fact released. *)
Record CloseBehaviour := {
  close_error : option JsError;
  close_effective : bool
}.

(** The script of one session (one [puppeteer.launch] and what follows
    on the browser it returns).  [generatePDF] makes each call at most
    once per session. *)
Record Session := {
  s_launch : option JsError;          (* puppeteer.launch rejects *)
  s_newPage : option JsError;         (* browser.newPage rejects *)
  s_setContent : option JsError;      (* page.setContent rejects *)
  s_page_closed_early : bool;         (* the page closes on its own while loading *)
  s_pdf : JsError + Buffer;           (* page.pdf rejects or resolves *)
  s_pageClose : CloseBehaviour;       (* page.close *)
  s_browserClose : CloseBehaviour     (* browser.close *)
}.

(** The engine double: session [n] is the one started by the [n]-th call
    of [puppeteer.launch] (counting from 0). *)
Definition Engine := nat -> Session.

(** Browsers and pages are named by the ordinal of their session; a
    session has at most one page. *)
Record World := {
  launches : nat;
  open_browsers : gset nat;
  open_pages : gset nat;
  events : list Event
}.

Definition emit_event (ev : Event) (w : World) : World :=
  {| launches := launches w; open_browsers := open_browsers w;
     open_pages := open_pages w; events := events w ++ [ev] |}.

Definition emit (ev : Event) : M World unit := modify (emit_event ev).

Definition console (lvl : Level) (text : string) (args : list JsVal) : M World unit :=
  emit (Console lvl text args).

(** [new Promise((resolve) => setTimeout(resolve, ms))], awaited. *)
Definition delay (ms : Z) : M World unit := emit (SetTimeout ms).

(** [puppeteer.launch({ headless: true, args: [...], timeout: 60000 })] *)
Definition puppeteer_launch (puppeteer : Engine) : M World nat :=
  fun w =>
    let sid := launches w in
    let w1 := {| launches := S sid; open_browsers := open_browsers w;
                 open_pages := open_pages w; events := events w ++ [Launch sid] |} in
    match s_launch (puppeteer sid) with
    | Some err => (Throw err, w1)
    | None => (Ok sid, {| launches := launches w1; open_browsers := {[sid]} ∪ open_browsers w1;
                          open_pages := open_pages w1; events := events w1 |})
    end.

(** [browser.newPage()] *)
Definition browser_newPage (puppeteer : Engine) (b : nat) : M World nat :=
  fun w =>
    let w1 := emit_event (NewPage b) w in
    match s_newPage (puppeteer b) with
    | Some err => (Throw err, w1)
    | None => (Ok b, {| launches := launches w1; open_browsers := open_browsers w1;
                        open_pages := {[b]} ∪ open_pages w1; events := events w1 |})
    end.

(** [page.setContent(html, { waitUntil: "domcontentloaded", timeout: 15000 })] *)
Definition page_setContent (puppeteer : Engine) (p : nat) (html : JsVal) : M World unit :=
  fun w =>
    let w1 := emit_event (SetContent p html) w in
    let w2 := {| launches := launches w1; open_browsers := open_browsers w1;
                 open_pages := if s_page_closed_early (puppeteer p)
                               then open_pages w1 ∖ {[p]} else open_pages w1;
                 events := events w1 |} in
    match s_setContent (puppeteer p) with
    | Some err => (Throw err, w2)
    | None => (Ok tt, w2)
    end.

(** [page.pdf(pdfOptions)] *)
Definition page_pdf (puppeteer : Engine) (p : nat) (pdfOptions : gmap string JsVal)
  : M World Buffer :=
  fun w =>
    let w1 := emit_event (PdfExport p pdfOptions) w in
    match s_pdf (puppeteer p) with
    | inl err => (Throw err, w1)
    | inr pdf => (Ok pdf, w1)
    end.

(** [page.isClosed()] *)
Definition page_isClosed (p : nat) : M World bool :=
  fun w => (Ok (bool_decide (p ∉ open_pages w)), emit_event (IsClosed p) w).

Definition release (effective : bool) (x : nat) (s : gset nat) : gset nat :=
  if effective then s ∖ {[x]} else s.

(** [page.close()] *)
Definition page_close (puppeteer : Engine) (p : nat) : M World unit :=
  fun w =>
    let c := s_pageClose (puppeteer p) in
    let w1 := emit_event (PageClose p) w in
    let w2 := {| launches := launches w1; open_browsers := open_browsers w1;
                 open_pages := release (close_effective c) p (open_pages w1);
                 events := events w1 |} in
    match close_error c with
    | Some err => (Throw err, w2)
    | None => (Ok tt, w2)
    end.

(** [browser.close()]: closing a browser closes its page too. *)
Definition browser_close (puppeteer : Engine) (b : nat) : M World unit :=
  fun w =>
    let c := s_browserClose (puppeteer b) in
    let w1 := emit_event (BrowserClose b) w in
    let w2 := {| launches := launches w1;
                 open_browsers := release (close_effective c) b (open_browsers w1);
                 open_pages := release (close_effective c) b (open_pages w1);
                 events := events w1 |} in
    match close_error c with
    | Some err => (Throw err, w2)
    | None => (Ok tt, w2)
    end.

(* ===================================================================== *)
(** ** generatePDF *)
(* ===================================================================== *)

(** The variables of one activation of [generatePDF]: [lastError] lives
    across attempts, [browser] and [page] are reset by every iteration. *)
Record Frame := {
  world : World;
  lastError : option JsError;
  browser : option nat;
  page : option nat
}.

Definition new_frame (w : World) : Frame :=
  {| world := w; lastError := None; browser := None; page := None |}.

Definition set_world (w : World) (f : Frame) : Frame :=
  {| world := w; lastError := lastError f; browser := browser f; page := page f |}.

Definition set_lastError (e : JsError) : M Frame unit :=
  modify (fun f => {| world := world f; lastError := Some e;
                      browser := browser f; page := page f |}).

Definition set_browser (b : option nat) : M Frame unit :=
  modify (fun f => {| world := world f; lastError := lastError f;
                      browser := b; page := page f |}).

Definition set_page (p : option nat) : M Frame unit :=
  modify (fun f => {| world := world f; lastError := lastError f;
                      browser := browser f; page := p |}).

(** Running an effect on the world from inside the activation. *)
Definition io {A} (m : M World A) : M Frame A := zoom world set_world m.

(** [throw x] for a variable [x] holding an error object; an unassigned
    variable throws [undefined], which is kept apart from every error
    object by its name. *)
Definition thrown_undefined : JsError := mkError "undefined" EmptyString.

Definition throw_var {S A} (x : option JsError) : M S A :=
  match x with
  | Some e => throw e
  | None => throw thrown_undefined
  end.

Definition default_margin : JsVal :=
  JObj {[ "top" := JStr "1cm"; "right" := JStr "1cm";
          "bottom" := JStr "1cm"; "left" := JStr "1cm" ]}.

Definition default_pdfOptions : gmap string JsVal :=
  {[ "format" := JStr "A4";
     "printBackground" := JBool true;
     "margin" := default_margin;
     "timeout" := num_of_Z 30000 ]}.

(** [{ format: "A4", printBackground: true, margin: {...}, timeout: 30000,
       ...options }]: the properties spread last win. *)
Definition pdfOptions (options : JsVal) : gmap string JsVal :=
  own_props options ∪ default_pdfOptions.

Section generatePDF.

Variable puppeteer : Engine.
Variable html : JsVal.
Variable options : JsVal.
Variable maxRetries : Z.

(** The body of [try { ... }]; [Some pdf] is [return pdf]. *)
Definition try_block (attempt : Z) : M Frame (option Buffer) :=
  io (console LOG "PDF generation attempt ${attempt}/${maxRetries}"
        [num_of_Z attempt; num_of_Z maxRetries]) ;;
  b ← io (puppeteer_launch puppeteer) ;
  set_browser (Some b) ;;
  p ← io (browser_newPage puppeteer b) ;
  set_page (Some p) ;;
  io (console LOG "Setting page content..." []) ;;
  io (page_setContent puppeteer p html) ;;
  io (delay 2000) ;;
  io (console LOG "Generating PDF..." []) ;;
  pdf ← io (page_pdf puppeteer p (pdfOptions (default_param options (JObj ∅)))) ;
  io (console LOG "PDF generated successfully (${pdf.length} bytes)"
        [num_of_nat (length pdf)]) ;;
  mret (Some pdf).

(** The body of [catch (error) { ... }]; [None] is normal completion,
    after which the loop goes on. *)
Definition catch_block (attempt : Z) (error : JsError) : M Frame (option Buffer) :=
  set_lastError error ;;
  io (console ERROR "PDF generation attempt ${attempt} failed:"
        [num_of_Z attempt; JStr (message error)]) ;;
  if attempt =? maxRetries then
    e ← gets lastError ; throw_var e
  else
    io (console LOG "Waiting before retry attempt ${attempt + 1}..."
          [num_of_Z (attempt + 1)]) ;;
    io (delay 2000) ;;
    mret None.

(** The body of [finally { ... }]. *)
Definition finally_block : M Frame unit :=
  pg ← gets page ;
  match pg with
  | Some p =>
      try_catch
        (closed ← io (page_isClosed p) ;
         if negb closed then io (page_close puppeteer p) else mret tt)
        (fun closeError =>
           io (console WARN "Error closing page:" [JStr (message closeError)]))
  | None => mret tt
  end ;;
  br ← gets browser ;
  match br with
  | Some b =>
      try_catch
        (io (browser_close puppeteer b))
        (fun browserCloseError =>
           io (console WARN "Error closing browser:" [JStr (message browserCloseError)]))
  | None => mret tt
  end.

(** One iteration of the [for] loop. *)
Definition attempt_body (attempt : Z) : M Frame (option Buffer) :=
  set_browser None ;;
  set_page None ;;
  try_finally (try_catch (try_block attempt) (catch_block attempt)) finally_block.

(** [for (let attempt = 1; attempt <= maxRetries; attempt++)], by
    recursion on the number of iterations left: the loop is entered with
    [attempt = 1] and [Z.to_nat maxRetries] iterations to go, that is as
    long as [attempt <= maxRetries] (see [for_loop_guard]). *)
Fixpoint for_loop (remaining : nat) (attempt : Z) : M Frame (option Buffer) :=
  match remaining with
  | O => mret None
  | S r =>
      res ← attempt_body attempt ;
      match res with
      | Some pdf => mret (Some pdf)
      | None => for_loop r (attempt + 1)
      end
  end.

(** [async function generatePDF(html, options = {}, maxRetries = 2)];
    [None] is the result [undefined] of falling off the end.
    [maxRetries] is a number of attempts, an integer; errors are error
    objects. *)
Definition generatePDF : M World (option Buffer) :=
  fun w =>
    let '(r, f) := for_loop (Z.to_nat maxRetries) 1 (new_frame w) in
    (r, world f).

End generatePDF.

(* ===================================================================== *)
(** ** The POST /html-to-pdf handler *)
(* ===================================================================== *)

Inductive Body :=
| JsonBody (v : JsVal)
| RawBody (b : Buffer).

(** The response object [res] as the handler leaves it. *)
Record Response := {
  status : Z;
  headers : gmap string JsVal;
  body : option Body
}.

Definition fresh_response : Response :=
  {| status := 200; headers := ∅; body := None |}.

(** What a handler acts on: the world and the response being built. *)
Record Exchange := {
  x_world : World;
  res : Response
}.

Definition net {A} (m : M World A) : M Exchange A :=
  zoom x_world (fun w x => {| x_world := w; res := res x |}) m.

Definition on_res (f : Response -> Response) : M Exchange unit :=
  modify (fun x => {| x_world := x_world x; res := f (res x) |}).

Definition res_status (code : Z) : M Exchange unit :=
  on_res (fun r => {| status := code; headers := headers r; body := body r |}).

Definition res_setHeader (name : string) (v : JsVal) : M Exchange unit :=
  on_res (fun r => {| status := status r; headers := <[name := v]> (headers r);
                      body := body r |}).

Definition res_json (v : JsVal) : M Exchange unit :=
  on_res (fun r => {| status := status r;
                      headers := <["Content-Type" := JStr "application/json; charset=utf-8"]>
                                   (headers r);
                      body := Some (JsonBody v) |}).

Definition res_send (b : Buffer) : M Exchange unit :=
  on_res (fun r => {| status := status r; headers := headers r;
                      body := Some (RawBody b) |}).

(** The value of a property [v.k] of a value that has properties.
    Arrays and strings have [length] and their indices.  Properties
    inherited from the built-in prototypes are methods and are not
    modelled: none of them is named [html], [options] or [length] where
    the handler reads those. *)
Definition field (v : JsVal) (k : string) : JsVal :=
  match v with
  | JObj m => default JUndefined (m !! k)
  | JArr l =>
      if decide (k = "length") then num_of_nat (length l)
      else default JUndefined (indexed l !! k)
  | JStr s =>
      if decide (k = "length") then num_of_nat (String.length s)
      else default JUndefined (indexed (chars s) !! k)
  | _ => JUndefined
  end.

(** [undefined] and [null] have no properties: reading one throws. *)
Definition readable (v : JsVal) : bool :=
  match v with
  | JUndefined | JNull => false
  | _ => true
  end.

(** Reading a property [v.k]. *)
Definition get_property {S} (v : JsVal) (k : string) : M S JsVal :=
  if readable v then mret (field v k)
  else throw (TypeError "Cannot read properties of undefined or null").

(** Evaluating a template literal that interpolates [args]. *)
Definition template {S} (args : list JsVal) : M S unit :=
  if existsb toString_throws args
  then throw (TypeError "Cannot convert object to primitive value")
  else mret tt.

Definition dq : string := String (ascii_of_nat 34) EmptyString.

Definition usage_hint : string :=
  "POST /html-to-pdf with { " +:+ dq +:+ "html" +:+ dq +:+ ": " +:+ dq
  +:+ "<html>...</html>" +:+ dq +:+ ", " +:+ dq +:+ "options" +:+ dq +:+ ": {...} }".

Definition availableOptions : JsVal :=
  JObj {[ "format" := JStr "A4, A3, A2, A1, A0, Letter, Legal, Tabloid, Ledger";
          "width" := JStr "CSS width (e.g., '210mm', '8.5in')";
          "height" := JStr "CSS height (e.g., '297mm', '11in')";
          "margin" := JStr "Object with top, right, bottom, left margins";
          "displayHeaderFooter" := JStr "Boolean to show header/footer";
          "headerTemplate" := JStr "HTML template for header";
          "footerTemplate" := JStr "HTML template for footer";
          "printBackground" := JStr "Boolean to include background graphics";
          "landscape" := JStr "Boolean for landscape orientation";
          "pageRanges" := JStr "String of page ranges (e.g., '1-3, 5')";
          "scale" := JStr "Number between 0.1 and 2" ]}.

Definition bad_request : JsVal :=
  JObj {[ "error" := JStr "HTML content is required";
          "usage" := JStr usage_hint;
          "availableOptions" := availableOptions ]}.

Definition content_disposition : string :=
  "attachment; filename=" +:+ dq +:+ "document.pdf" +:+ dq.

Section handler.

Variable puppeteer : Engine.

(** What follows the validation in the [try] block of the handler. *)
Definition convert (html options : JsVal) : M Exchange unit :=
  len ← get_property html "length" ;
  template [len] ;;
  net (console LOG "Converting HTML to PDF (${html.length} characters)" [len]) ;;
  pdf ← net (generatePDF puppeteer html options 2) ;
  res_setHeader "Content-Type" (JStr "application/pdf") ;;
  res_setHeader "Content-Disposition" (JStr content_disposition) ;;
  match pdf with
  | Some buf =>
      res_setHeader "Content-Length" (num_of_nat (length buf)) ;;
      res_send buf
  | None =>
      (* [pdf.length] on [undefined] *)
      throw (TypeError "Cannot read properties of undefined (reading 'length')")
  end.

(** [app.post("/html-to-pdf", async (req, res) => { ... })] on the parsed
    request body [req.body]. *)
Definition post_html_to_pdf (req_body : JsVal) : M Exchange unit :=
  try_catch
    (html ← get_property req_body "html" ;
     opt ← get_property req_body "options" ;
     let options := default_param opt (JObj ∅) in
     if negb (truthy html) then
       res_status 400 ;;
       res_json bad_request
     else
       convert html options)
    (fun error =>
       net (console ERROR "Server error:" [err_val error]) ;;
       res_status 500 ;;
       res_json (JObj {[ "error" := JStr "Failed to generate PDF";
                         "details" := JStr (message error) ]})).

End handler.

(** A request arrives with a response nobody has written to yet. *)
Definition incoming (w : World) : Exchange :=
  {| x_world := w; res := fresh_response |}.

(* ===================================================================== *)
(** ** The GET /test-pdf handler *)
(* ===================================================================== *)

Definition nl : string := String (ascii_of_nat 10) EmptyString.

(** The template literal [sampleHtml], line by line; [now] is what
    [new Date().toISOString()] gives when the request is served. *)
Definition sampleHtml (now : string) : string :=
  String.concat nl
    [EmptyString;
     "    <!DOCTYPE html>";
     "    <html>";
     "    <head>";
     "        <meta charset=" +:+ dq +:+ "UTF-8" +:+ dq +:+ ">";
     "        <title>Test PDF</title>";
     "        <style>";
     "            body { font-family: Arial, sans-serif; margin: 40px; }";
     "            h1 { color: #333; }";
     "            p { line-height: 1.6; }";
     "            .highlight { background-color: yellow; }";
     "        </style>";
     "    </head>";
     "    <body>";
     "        <h1>Test PDF Document</h1>";
     "        <p>This is a <span class=" +:+ dq +:+ "highlight" +:+ dq
       +:+ ">test PDF</span> generated from HTML content.</p>";
     "        <p>Current time: " +:+ now +:+ "</p>";
     "        <ul>";
     "            <li>First item</li>";
     "            <li>Second item</li>";
     "            <li>Third item</li>";
     "        </ul>";
     "    </body>";
     "    </html>";
     "  "].

Definition test_content_disposition : string :=
  "attachment; filename=" +:+ dq +:+ "test-document.pdf" +:+ dq.

(** [app.get("/test-pdf", async (req, res) => { ... })]; the call
    [generatePDF(sampleHtml)] leaves [options] and [maxRetries] to their
    defaults. *)
Definition get_test_pdf (puppeteer : Engine) (now : string) : M Exchange unit :=
  let sampleHtml := JStr (sampleHtml now) in
  try_catch
    (net (console LOG "Generating test PDF" []) ;;
     pdf ← net (generatePDF puppeteer sampleHtml JUndefined 2) ;
     res_setHeader "Content-Type" (JStr "application/pdf") ;;
     res_setHeader "Content-Disposition" (JStr test_content_disposition) ;;
     match pdf with
     | Some buf =>
         res_setHeader "Content-Length" (num_of_nat (length buf)) ;;
         res_send buf
     | None =>
         throw (TypeError "Cannot read properties of undefined (reading 'length')")
     end)
    (fun error =>
       net (console ERROR "Test PDF error:" [err_val error]) ;;
       res_status 500 ;;
       res_json (JObj {[ "error" := JStr "Failed to generate test PDF";
                         "details" := JStr (message error) ]})).

(** *** Responses *)

(** The response that carries a PDF. *)
Definition pdf_response (disposition : string) (pdf : Buffer) : Response :=
  {| status := 200;
     headers := {[ "Content-Type" := JStr "application/pdf";
                   "Content-Disposition" := JStr disposition;
                   "Content-Length" := num_of_nat (length pdf) ]};
     body := Some (RawBody pdf) |}.

(** The response that reports a failure. *)
Definition failure_response (error : string) (details : string) : Response :=
  {| status := 500;
     headers := {[ "Content-Type" := JStr "application/json; charset=utf-8" ]};
     body := Some (JsonBody (JObj {[ "error" := JStr error;
                                     "details" := JStr details ]})) |}.

(* ===================================================================== *)
(** ** Reading runs and doubles *)
(* ===================================================================== *)

(** What the [try] block of an attempt comes to on a given session: the
    first call that rejects decides, otherwise the export does. *)
Definition try_outcome (s : Session) : JsError + Buffer :=
  match s_launch s with
  | Some err => inl err
  | None =>
      match s_newPage s with
      | Some err => inl err
      | None =>
          match s_setContent s with
          | Some err => inl err
          | None => s_pdf s
          end
      end
  end.

Definition launch_ok (s : Session) : bool :=
  match s_launch s with None => true | Some _ => false end.

Definition page_ok (s : Session) : bool :=
  launch_ok s && match s_newPage s with None => true | Some _ => false end.

(** The attempt gets as far as calling [page.pdf]. *)
Definition reaches_export (s : Session) : bool :=
  page_ok s && match s_setContent s with None => true | Some _ => false end.

(** Projections of a trace on one kind of call. *)
Definition launched (tr : list Event) : list nat :=
  omap (fun ev => match ev with Launch sid => Some sid | _ => None end) tr.

Definition closed_browsers (tr : list Event) : list nat :=
  omap (fun ev => match ev with BrowserClose sid => Some sid | _ => None end) tr.

Definition closed_pages (tr : list Event) : list nat :=
  omap (fun ev => match ev with PageClose sid => Some sid | _ => None end) tr.

Definition checked_pages (tr : list Event) : list nat :=
  omap (fun ev => match ev with IsClosed sid => Some sid | _ => None end) tr.

Definition exports (tr : list Event) : list (gmap string JsVal) :=
  omap (fun ev => match ev with PdfExport _ o => Some o | _ => None end) tr.

Definition contents (tr : list Event) : list JsVal :=
  omap (fun ev => match ev with SetContent _ h => Some h | _ => None end) tr.

Definition timeouts (tr : list Event) : list Z :=
  omap (fun ev => match ev with SetTimeout ms => Some ms | _ => None end) tr.

(** The sessions among [n], [n+1], ..., [n+k-1] whose launch succeeds. *)
Definition launched_ok (puppeteer : Engine) (n k : nat) : list nat :=
  List.filter (fun i => launch_ok (puppeteer i)) (seq n k).

(** The session that serves attempt [k] of a call entered in world [w]. *)
Definition session_of (puppeteer : Engine) (w : World) (k : Z) : Session :=
  puppeteer (launches w + Z.to_nat (k - 1))%nat.

(** Engine instances and pages open in [w'] that were not open in [w]. *)
Definition leaked (w w' : World) : gset nat * gset nat :=
  (open_browsers w' ∖ open_browsers w, open_pages w' ∖ open_pages w).


(** The world of a server that has not launched anything yet. *)
Definition boot : World :=
  {| launches := 0; open_browsers := ∅; open_pages := ∅; events := [] |}.

(** *** Some doubles *)

Definition closes : CloseBehaviour :=
  {| close_error := None; close_effective := true |}.

Definition close_fails : CloseBehaviour :=
  {| close_error := Some (mkError "Error" "Protocol error: Connection closed");
     close_effective := false |}.

Definition sample_pdf : Buffer :=
  [Byte.x25; Byte.x50; Byte.x44; Byte.x46; Byte.x2d].

Definition healthy : Session :=
  {| s_launch := None; s_newPage := None; s_setContent := None;
     s_page_closed_early := false; s_pdf := inr sample_pdf;
     s_pageClose := closes; s_browserClose := closes |}.

Definition no_launch : Session :=
  {| s_launch := Some (mkError "Error" "Failed to launch the browser process");
     s_newPage := None; s_setContent := None;
     s_page_closed_early := false; s_pdf := inr sample_pdf;
     s_pageClose := closes; s_browserClose := closes |}.

Definition no_page : Session :=
  {| s_launch := None;
     s_newPage := Some (mkError "Error" "Target closed");
     s_setContent := None;
     s_page_closed_early := false; s_pdf := inr sample_pdf;
     s_pageClose := closes; s_browserClose := closes |}.

Definition export_times_out : Session :=
  {| s_launch := None; s_newPage := None; s_setContent := None;
     s_page_closed_early := false;
     s_pdf := inl (mkError "TimeoutError" "Timed out after waiting 30000ms");
     s_pageClose := closes; s_browserClose := closes |}.

Definition stuck_browser : Session :=
  {| s_launch := None; s_newPage := None; s_setContent := None;
     s_page_closed_early := false; s_pdf := inr sample_pdf;
     s_pageClose := closes; s_browserClose := close_fails |}.

Definition always (s : Session) : Engine := fun _ => s.

(** Fails to open a page on the first session, to launch on the second. *)
Definition page_then_launch_failure : Engine :=
  fun n => match n with O => no_page | _ => no_launch end.

(** The export times out on the first session and succeeds afterwards. *)
Definition second_time_lucky : Engine :=
  fun n => match n with O => export_times_out | _ => healthy end.

(** What one iteration of the loop comes to: [Some pdf] returns, [None]
    goes on with the next attempt, a throw leaves [generatePDF]. *)
Definition attempt_result (maxRetries attempt : Z) (s : Session) : Res (option Buffer) :=
  match try_outcome s with
  | inr pdf => Ok (Some pdf)
  | inl err => if attempt =? maxRetries then Throw err else Ok None
  end.

(** The browser of the session, if one was launched, is released by its
    [close()]. *)
Definition releases (s : Session) : bool :=
  negb (launch_ok s) || close_effective (s_browserClose s).

(** The completion of the [try] block. *)
Definition try_result (s : Session) : Res (option Buffer) :=
  match try_outcome s with
  | inr pdf => Ok (Some pdf)
  | inl err => Throw err
  end.

(** What the [catch] block emits. *)
Definition catch_events (maxRetries attempt : Z) (error : JsError) : list Event :=
  Console ERROR "PDF generation attempt ${attempt} failed:"
    [num_of_Z attempt; JStr (message error)]
  :: (if attempt =? maxRetries then []
      else [Console LOG "Waiting before retry attempt ${attempt + 1}..."
              [num_of_Z (attempt + 1)];
            SetTimeout 2000]).

(** [let browser = null; let page = null;] at the top of an iteration. *)
Definition reset (f : Frame) : Frame :=
  {| world := world f; lastError := lastError f; browser := None; page := None |}.

(** The sessions among [n], ..., [n+k-1] that got a page, and those whose
    page is still open when the cleanup looks at it. *)
Definition opened_pages (puppeteer : Engine) (n k : nat) : list nat :=
  List.filter (fun i => page_ok (puppeteer i)) (seq n k).

Definition pages_to_close (puppeteer : Engine) (n k : nat) : list nat :=
  List.filter (fun i => page_ok (puppeteer i) && negb (s_page_closed_early (puppeteer i)))
    (seq n k).

(** A stretch of execution from [w] to [w'] that cleans up after itself:
    it launched [k] sessions; it called [browser.close()] once on every
    browser it got, [page.isClosed()] on every page it got and
    [page.close()] on those found open; and if the [close()] of every
    browser it got takes effect, nothing it opened is open in [w']. *)
Definition tidy (puppeteer : Engine) (w w' : World) : Prop :=
  exists (tr : list Event) (k : nat),
    launches w' = (launches w + k)%nat
    /\ events w' = events w ++ tr
    /\ launched tr = seq (launches w) k
    /\ closed_browsers tr = launched_ok puppeteer (launches w) k
    /\ checked_pages tr = opened_pages puppeteer (launches w) k
    /\ closed_pages tr = pages_to_close puppeteer (launches w) k
    /\ ((forall i, (launches w <= i < launches w + k)%nat -> releases (puppeteer i) = true) ->
        leaked w w' = (∅, ∅)).

(** The same double with other behaviours of [page.close] and
    [browser.close]. *)
Definition with_cleanup (c : nat -> CloseBehaviour * CloseBehaviour) (puppeteer : Engine)
  : Engine :=
  fun n =>
    {| s_launch := s_launch (puppeteer n);
       s_newPage := s_newPage (puppeteer n);
       s_setContent := s_setContent (puppeteer n);
       s_page_closed_early := s_page_closed_early (puppeteer n);
       s_pdf := s_pdf (puppeteer n);
       s_pageClose := fst (c n);
       s_browserClose := snd (c n) |}.

(** The response to a request without usable [html]. *)
Definition rejected : Response :=
  {| status := 400;
     headers := {[ "Content-Type" := JStr "application/json; charset=utf-8" ]};
     body := Some (JsonBody bad_request) |}.

(** The line the handler logs before it calls [generatePDF]. *)
Definition converting (html : JsVal) : Event :=
  Console LOG "Converting HTML to PDF (${html.length} characters)" [field html "length"].

(** A request body whose [html] is an object with a [length] that no
    template literal can print:
    [{ "html": { "length": { "toString": 1 } } }]. *)
Definition unprintable_length : JsVal :=
  JObj {[ "html" := JObj {[ "length" := JObj {[ "toString" := num_of_Z 1 ]} ]} ]}.

(** The [console.warn] calls of a trace: message and printed values. *)
Definition warnings (tr : list Event) : list (string * list JsVal) :=
  omap (fun ev => match ev with
                  | Console WARN text args => Some (text, args)
                  | _ => None
                  end) tr.

(** The warning a [close()] gives rise to: one if it rejects. *)
Definition close_warning (text : string) (c : CloseBehaviour) : list (string * list JsVal) :=
  match close_error c with
  | Some err => [(text, [JStr (message err)])]
  | None => []
  end.

(** The warnings the cleanup of a session gives rise to: for the page if
    it is closed there, then for the browser if there is one. *)
Definition session_warnings (s : Session) : list (string * list JsVal) :=
  (if page_ok s && negb (s_page_closed_early s)
   then close_warning "Error closing page:" (s_pageClose s) else [])
  ++ (if launch_ok s then close_warning "Error closing browser:" (s_browserClose s) else []).

(** The waits of an attempt on a session: the settling delay once the
    content is loaded, and the pause before a retry. *)
Definition session_timeouts (maxRetries attempt : Z) (s : Session) : list Z :=
  (if reaches_export s then [2000] else [])
  ++ match try_outcome s with
     | inl _ => if attempt =? maxRetries then [] else [2000]
     | inr _ => []
     end.

(** Every export in a trace comes after the content was set on the same
    page and after a wait of 2000 ms that follows it. *)
Definition exports_prepared (html : JsVal) (tr : list Event) : Prop :=
  forall (i sid : nat) (o : gmap string JsVal),
    tr !! i = Some (PdfExport sid o) ->
    exists j k : nat,
      (j < k < i)%nat
      /\ tr !! j = Some (SetContent sid html)
      /\ tr !! k = Some (SetTimeout 2000).

(** Works on the first session; from the second on, [browser.close]
    rejects and leaves the browser open. *)
Definition healthy_then_stuck : Engine :=
  fun n => match n with O => healthy | _ => stuck_browser end.

(* ===================================================================== *)
(** ** Symbolic execution of the blocks *)
(* ===================================================================== *)

Ltac unfold_blocks :=
  repeat (progress unfold attempt_body, try_block, catch_block, finally_block,
    try_finally, try_catch, io, zoom, console, delay, emit, modify, gets,
    throw_var, throw, set_browser, set_page, set_lastError,
    puppeteer_launch, browser_newPage, page_setContent, page_pdf, page_isClosed,
    page_close, browser_close, mbind, M_bind, mret, M_ret).

Ltac split_session e w Hs :=
  destruct (e (launches w)) as [sl sn sc early sp [pce pcf] [bce bcf]] eqn:Hs.

Ltac run_blocks Hs :=
  repeat (cbn; rewrite ?Hs; cbn;
          match goal with
          | |- context [match ?x with _ => _ end] => is_var x; destruct x
          end);
  cbn.

Ltac close_trace :=
  rewrite <- ?app_assoc; first [reflexivity | exact (eq_sym (app_nil_r _))].

Ltac unfold_handler :=
  repeat (progress unfold post_html_to_pdf, convert, get_property, template, net, zoom,
    on_res, res_status, res_json, res_setHeader, res_send, console, emit, modify,
    try_catch, throw, mbind, M_bind, mret, M_ret, incoming).

(* ===================================================================== *)
(** * Properties *)
(* ===================================================================== *)

(* ===================================================================== *)
(** ** Runs of the model *)
(* ===================================================================== *)

Example truthy_values :
  List.map truthy
    [JUndefined; JNull; JBool false; num_of_Z 0; JNum S754_nan; JStr EmptyString;
     JStr "0"; num_of_Z 7; JArr []; JObj ∅]
  = [false; false; false; false; false; false; true; true; true; true].
Proof. reflexivity. Qed.

Example spread_of_a_string :
  own_props (JStr "ab") = {[ "0" := JStr "a"; "1" := JStr "b" ]}.
Proof. vm_compute. reflexivity. Qed.

(** A first attempt whose export times out, then a successful one. *)
Example second_time_lucky_run :
  generatePDF second_time_lucky (JStr "<h1>Hello</h1>") JUndefined 2 boot
  = (Ok (Some sample_pdf),
     {| launches := 2; open_browsers := ∅; open_pages := ∅;
        events :=
          [Console LOG "PDF generation attempt ${attempt}/${maxRetries}"
             [num_of_Z 1; num_of_Z 2];
           Launch 0; NewPage 0;
           Console LOG "Setting page content..." [];
           SetContent 0 (JStr "<h1>Hello</h1>");
           SetTimeout 2000;
           Console LOG "Generating PDF..." [];
           PdfExport 0 default_pdfOptions;
           Console ERROR "PDF generation attempt ${attempt} failed:"
             [num_of_Z 1; JStr "Timed out after waiting 30000ms"];
           Console LOG "Waiting before retry attempt ${attempt + 1}..." [num_of_Z 2];
           SetTimeout 2000;
           IsClosed 0; PageClose 0; BrowserClose 0;
           Console LOG "PDF generation attempt ${attempt}/${maxRetries}"
             [num_of_Z 2; num_of_Z 2];
           Launch 1; NewPage 1;
           Console LOG "Setting page content..." [];
           SetContent 1 (JStr "<h1>Hello</h1>");
           SetTimeout 2000;
           Console LOG "Generating PDF..." [];
           PdfExport 1 default_pdfOptions;
           Console LOG "PDF generated successfully (${pdf.length} bytes)" [num_of_Z 5];
           IsClosed 1; PageClose 1; BrowserClose 1] |}).
Proof. vm_compute. reflexivity. Qed.

(** The handler on the body [{}]. *)
Example empty_body_run :
  post_html_to_pdf (always healthy) (JObj ∅) (incoming boot)
  = (Ok tt, {| x_world := boot; res := rejected |}).
Proof. vm_compute. reflexivity. Qed.

(* ===================================================================== *)
(** ** One attempt *)
(* ===================================================================== *)

Section attempt.
Variable e : Engine.
Variables html options : JsVal.
Variable maxRetries : Z.

Lemma try_block_spec (attempt : Z) (f : Frame) :
  let w := world f in
  let sid := launches w in
  let s := e sid in
  exists f1 tr,
    try_block e html options maxRetries attempt f = (try_result s, f1)
    /\ launches (world f1) = S sid
    /\ events (world f1) = events w ++ tr
    /\ lastError f1 = lastError f
    /\ browser f1 = (if launch_ok s then Some sid else browser f)
    /\ page f1 = (if page_ok s then Some sid else page f)
    /\ open_browsers (world f1)
       = (if launch_ok s then {[sid]} ∪ open_browsers w else open_browsers w)
    /\ open_pages (world f1)
       = (if page_ok s
          then if s_page_closed_early s
               then ({[sid]} ∪ open_pages w) ∖ {[sid]} else {[sid]} ∪ open_pages w
          else open_pages w)
    /\ launched tr = [sid]
    /\ closed_browsers tr = [] /\ checked_pages tr = [] /\ closed_pages tr = []
    /\ contents tr = (if page_ok s then [html] else [])
    /\ exports tr = (if reaches_export s
                     then [pdfOptions (default_param options (JObj ∅))] else []).
Proof.
  intros w sid s. subst s sid w.
  unfold try_result, try_outcome, reaches_export, page_ok, launch_ok.
  destruct f as [w le br pg]. unfold_blocks. cbn.
  split_session e w Hs.
  all: run_blocks Hs.
  all: eexists _, _; split; [reflexivity|]; cbn.
  all: split; [reflexivity|]; split; [close_trace|]; cbn.
  all: repeat split; reflexivity.
Qed.

Lemma catch_block_spec (attempt : Z) (error : JsError) (f : Frame) :
  catch_block maxRetries attempt error f
  = (if attempt =? maxRetries then Throw error else Ok None,
     {| world := {| launches := launches (world f);
                    open_browsers := open_browsers (world f);
                    open_pages := open_pages (world f);
                    events := events (world f) ++ catch_events maxRetries attempt error |};
        lastError := Some error; browser := browser f; page := page f |}).
Proof.
  destruct f as [w le br pg]. unfold catch_events. unfold_blocks. cbn.
  destruct (attempt =? maxRetries); unfold set_world, emit_event; cbn;
    rewrite <- ?app_assoc; reflexivity.
Qed.

Lemma finally_block_spec (f : Frame) :
  exists f' tr,
    finally_block e f = (Ok tt, f')
    /\ launches (world f') = launches (world f)
    /\ events (world f') = events (world f) ++ tr
    /\ lastError f' = lastError f
    /\ launched tr = [] /\ exports tr = [] /\ contents tr = [] /\ timeouts tr = []
    /\ closed_browsers tr = match browser f with Some b => [b] | None => [] end
    /\ checked_pages tr = match page f with Some p => [p] | None => [] end
    /\ closed_pages tr
       = match page f with
         | Some p => if bool_decide (p ∈ open_pages (world f)) then [p] else []
         | None => []
         end
    /\ open_browsers (world f') ⊆ open_browsers (world f)
    /\ open_pages (world f') ⊆ open_pages (world f)
    /\ (forall b, browser f = Some b -> close_effective (s_browserClose (e b)) = true ->
        (b ∉ open_browsers (world f')) /\ (b ∉ open_pages (world f'))).
Proof.
  destruct f as [w le br pg]. unfold_blocks. cbn.
  destruct pg as [p|], br as [b|]; cbn.
  all: repeat match goal with
         | |- context [bool_decide ?P] => destruct (bool_decide_reflect P); cbn
         | |- context [close_error ?c] => destruct (close_error c); cbn
         end.
  all: try (exfalso; set_solver).
  all: eexists _, _; split; [reflexivity|]; cbn.
  all: split; [reflexivity|]; split; [close_trace|]; cbn.
  all: unfold release; split_and!; try reflexivity; try discriminate.
  all: try (intros ? [= <-] ->).
  all: repeat match goal with |- context [close_effective ?c] =>
                destruct (close_effective c) end.
  all: try set_solver.
Qed.

Lemma attempt_body_unfold (attempt : Z) (f : Frame) :
  attempt_body e html options maxRetries attempt f
  = let '(r1, f1) := try_block e html options maxRetries attempt (reset f) in
    let '(r2, f2) := match r1 with
                     | Ok a => (Ok a, f1)
                     | Throw err => catch_block maxRetries attempt err f1
                     end in
    let '(r3, f3) := finally_block e f2 in
    (match r3 with Ok _ => r2 | Throw e' => Throw e' end, f3).
Proof.
  unfold attempt_body, try_finally, try_catch, set_browser, set_page, modify,
    mbind, M_bind, reset. cbn.
  destruct (try_block _ _ _ _ _ _) as [[a|err] f1]; cbn.
  - destruct (finally_block e f1) as [[[]|e'] f3]; reflexivity.
  - destruct (catch_block _ _ _ _) as [r2 f2].
    destruct (finally_block e f2) as [[[]|e'] f3]; reflexivity.
Qed.

Lemma proj_app {A} (p : Event -> option A) (t1 t2 : list Event) :
  omap p (t1 ++ t2) = omap p t1 ++ omap p t2.
Proof. apply omap_app. Qed.

Lemma attempt_body_spec (attempt : Z) (f : Frame) :
  let w := world f in
  let sid := launches w in
  let s := e sid in
  exists f' tr,
    attempt_body e html options maxRetries attempt f = (attempt_result maxRetries attempt s, f')
    /\ launches (world f') = S sid
    /\ events (world f') = events w ++ tr
    /\ lastError f' = match try_outcome s with inl err => Some err | inr _ => lastError f end
    /\ launched tr = [sid]
    /\ closed_browsers tr = (if launch_ok s then [sid] else [])
    /\ checked_pages tr = (if page_ok s then [sid] else [])
    /\ closed_pages tr = (if page_ok s && negb (s_page_closed_early s) then [sid] else [])
    /\ contents tr = (if page_ok s then [html] else [])
    /\ exports tr = (if reaches_export s
                     then [pdfOptions (default_param options (JObj ∅))] else [])
    /\ open_browsers (world f') ⊆ {[sid]} ∪ open_browsers w
    /\ open_pages (world f') ⊆ {[sid]} ∪ open_pages w
    /\ (releases s = true ->
        open_browsers (world f') ⊆ open_browsers w /\ open_pages (world f') ⊆ open_pages w).
Proof.
  intros w sid s. rewrite attempt_body_unfold.
  destruct (try_block_spec attempt (reset f))
    as (f1 & t1 & -> & Hl1 & He1 & Hle1 & Hb1 & Hp1 & Hob1 & Hop1 & P1 & P2 & P3 & P4 & P5 & P6).
  cbn [reset world lastError browser page] in *. fold w sid s in Hl1, He1, Hb1, Hp1, Hob1, Hop1, P1, P5 |- *.
  set (r2f2 := match try_result s with
               | Ok a => (Ok a, f1)
               | Throw err => catch_block maxRetries attempt err f1
               end).
  assert (exists f2 t2,
             r2f2 = (attempt_result maxRetries attempt s, f2)
             /\ world f2 = {| launches := launches (world f1);
                              open_browsers := open_browsers (world f1);
                              open_pages := open_pages (world f1);
                              events := events (world f1) ++ t2 |}
             /\ browser f2 = browser f1 /\ page f2 = page f1
             /\ lastError f2 = match try_outcome s with inl err => Some err | inr _ => lastError f end
             /\ launched t2 = [] /\ closed_browsers t2 = [] /\ checked_pages t2 = []
             /\ closed_pages t2 = [] /\ contents t2 = [] /\ exports t2 = [])
    as (f2 & t2 & -> & Hw2 & Hb2 & Hp2 & Hle2 & Q1 & Q2 & Q3 & Q4 & Q5 & Q6).
  { subst r2f2. unfold try_result, attempt_result. destruct (try_outcome s) as [err|pdf].
    - rewrite catch_block_spec. eexists _, (catch_events maxRetries attempt err).
      split; [reflexivity|]. cbn. unfold catch_events.
      destruct (attempt =? maxRetries); split_and!; reflexivity.
    - exists f1, []. rewrite app_nil_r. destruct f1 as [[] ? ? ?]; cbn in *.
      split_and!; try reflexivity. done. }
  destruct (finally_block_spec f2)
    as (f3 & t3 & -> & Hl3 & He3 & Hle3 & R1 & R2 & R3 & R4 & R5 & R6 & R7 & Hob3 & Hop3 & Hrel).
  exists f3, (t1 ++ t2 ++ t3).
  rewrite Hw2 in *. cbn [launches open_browsers open_pages events] in *.
  rewrite Hb2, Hb1 in *. rewrite Hp2, Hp1 in *.
  split; [reflexivity|]. split; [congruence|].
  split; [rewrite He3, He1, <- !app_assoc; reflexivity|].
  split; [congruence|].
  unfold launched, closed_browsers, checked_pages, closed_pages, contents, exports in *.
  rewrite !proj_app.
  rewrite P1, P2, P3, P4, P5, P6, Q1, Q2, Q3, Q4, Q5, Q6, R1, R2, R3, R5, R6, R7.
  rewrite !app_nil_r.
  unfold releases, page_ok in *.
  destruct (launch_ok s) eqn:Hlo;
    destruct (match s_newPage s with Some _ => false | None => true end) eqn:Hpo;
    destruct (s_page_closed_early s);
    cbn [andb negb orb] in *; rewrite Hob1, Hop1 in *.
  all: repeat match goal with |- context [bool_decide ?P] =>
                destruct (bool_decide_reflect P) end.
  all: split_and!; try reflexivity.
  all: try (clear - Hob3 Hop3; set_solver).
  all: try (intros Heff; try discriminate Heff).
  all: try (destruct (Hrel sid eq_refl Heff) as [Hn1 Hn2]; clear - Hob3 Hop3 Hn1 Hn2; set_solver).
  all: exfalso; match goal with
                | H : _ ∈ _ |- _ => clear - H; set_solver
                | H : _ ∉ _ |- _ => clear - H; set_solver
                end.
Qed.
End attempt.

(* ===================================================================== *)
(** ** The retry loop *)
(* ===================================================================== *)

Section loop.
Variable e : Engine.
Variables html options : JsVal.
Variable maxRetries : Z.

Lemma for_loop_step (r : nat) (attempt : Z) (f : Frame) :
  for_loop e html options maxRetries (S r) attempt f
  = match attempt_body e html options maxRetries attempt f with
    | (Ok None, f') => for_loop e html options maxRetries r (attempt + 1) f'
    | (Ok (Some pdf), f') => (Ok (Some pdf), f')
    | (Throw err, f') => (Throw err, f')
    end.
Proof.
  cbn [for_loop]. unfold mbind, M_bind.
  destruct (attempt_body _ _ _ _ _ _) as [[[pdf|]|err] f']; reflexivity.
Qed.

Lemma for_loop_app (n m : nat) (attempt : Z) (f : Frame) :
  for_loop e html options maxRetries (n + m) attempt f
  = match for_loop e html options maxRetries n attempt f with
    | (Ok None, f') => for_loop e html options maxRetries m (attempt + Z.of_nat n) f'
    | other => other
    end.
Proof.
  revert attempt f. induction n as [|n IH]; intros attempt f.
  - cbn. f_equal. lia.
  - change (S n + m)%nat with (S (n + m)). rewrite !for_loop_step.
    destruct (attempt_body _ _ _ _ _ _) as [[[pdf|]|err] f']; try reflexivity.
    rewrite IH. replace (attempt + 1 + Z.of_nat n) with (attempt + Z.of_nat (S n)) by lia.
    reflexivity.
Qed.

Lemma for_loop_run (remaining : nat) (attempt : Z) (f : Frame) :
  let w := world f in
  let sid := launches w in
  exists r f' tr k,
    for_loop e html options maxRetries remaining attempt f = (r, f')
    /\ (k <= remaining)%nat
    /\ launches (world f') = (sid + k)%nat
    /\ events (world f') = events w ++ tr
    /\ launched tr = seq sid k
    /\ closed_browsers tr = launched_ok e sid k
    /\ checked_pages tr = opened_pages e sid k
    /\ closed_pages tr = pages_to_close e sid k
    /\ contents tr = List.map (fun _ => html) (opened_pages e sid k)
    /\ exports tr
       = List.map (fun _ => pdfOptions (default_param options (JObj ∅)))
           (List.filter (fun i => reaches_export (e i)) (seq sid k))
    /\ ((forall i, (sid <= i < sid + k)%nat -> releases (e i) = true) ->
        open_browsers (world f') ⊆ open_browsers w /\ open_pages (world f') ⊆ open_pages w).
Proof.
  revert attempt f. induction remaining as [|n IH]; intros attempt f w sid.
  - exists (Ok None), f, [], 0%nat. cbn. rewrite app_nil_r, Nat.add_0_r.
    split_and!; try done; try lia.
  - rewrite for_loop_step.
    destruct (attempt_body_spec e html options maxRetries attempt f)
      as (f1 & t1 & -> & Hl & He & _ & A1 & A2 & A3 & A4 & A5 & A6 & _ & _ & Hrel).
    fold w sid in Hl, He, A1, A2, A3, A4, A5, A6, Hrel.
    assert (H1 : launches (world f1) = (sid + 1)%nat
              /\ events (world f1) = events w ++ t1
              /\ launched t1 = seq sid 1
              /\ closed_browsers t1 = launched_ok e sid 1
              /\ checked_pages t1 = opened_pages e sid 1
              /\ closed_pages t1 = pages_to_close e sid 1
              /\ contents t1 = List.map (fun _ => html) (opened_pages e sid 1)
              /\ exports t1
                 = List.map (fun _ => pdfOptions (default_param options (JObj ∅)))
                     (List.filter (fun i => reaches_export (e i)) (seq sid 1))
              /\ ((forall i, (sid <= i < sid + 1)%nat -> releases (e i) = true) ->
                  open_browsers (world f1) ⊆ open_browsers w
                  /\ open_pages (world f1) ⊆ open_pages w)).
    { unfold launched_ok, opened_pages, pages_to_close. cbn [seq List.filter].
      rewrite A1, A2, A3, A4, A5, A6.
      split_and!; try done; try lia.
      all: try (intros Hall; apply Hrel, Hall; lia).
      all: repeat match goal with |- context [if ?b then _ else _] => destruct b end.
      all: reflexivity. }
    destruct (attempt_result _ _ _) as [[pdf|]|err].
    + exists (Ok (Some pdf)), f1, t1, 1%nat. split; [reflexivity|]. split; [lia|]. exact H1.
    + destruct (IH (attempt + 1) f1)
        as (r & f' & t2 & k & -> & Hk & Hl2 & He2 & B1 & B2 & B3 & B4 & B5 & B6 & Hrel2).
      rewrite Hl in *. 
      exists r, f', (t1 ++ t2), (S k).
      unfold launched, closed_browsers, checked_pages, closed_pages, contents, exports,
        launched_ok, opened_pages, pages_to_close in *.
      rewrite !proj_app, B1, B2, B3, B4, B5, B6.
      cbn [seq List.filter].
      rewrite A1, A2, A3, A4, A5, A6.
      split_and!; try reflexivity; try lia.
      * rewrite He2, He, app_assoc. reflexivity.
      * by destruct (launch_ok (e sid)).
      * by destruct (page_ok (e sid)).
      * by destruct (page_ok (e sid) && negb (s_page_closed_early (e sid))).
      * by destruct (page_ok (e sid)).
      * by destruct (reaches_export (e sid)).
      * intros Hall.
        destruct Hrel as [Ha Hb]; [apply Hall; lia|].
        destruct Hrel2 as [Hc Hd]; [intros i Hi; apply Hall; lia|].
        split; etrans; eassumption.
    + exists (Throw err), f1, t1, 1%nat. split; [reflexivity|]. split; [lia|]. exact H1.
Qed.

End loop.

Section scenarios.
Variable e : Engine.
Variables html options : JsVal.
Variable maxRetries : Z.

(** The loop as the source writes it: with [attempt] in hand, the body
    runs if [attempt <= maxRetries] and the loop goes on with
    [attempt + 1]; otherwise the function falls off its end. *)
Lemma for_loop_guard (attempt : Z) (f : Frame) :
  for_loop e html options maxRetries (Z.to_nat (maxRetries + 1 - attempt)) attempt f
  = if attempt <=? maxRetries then
      match attempt_body e html options maxRetries attempt f with
      | (Ok None, f') =>
          for_loop e html options maxRetries
            (Z.to_nat (maxRetries + 1 - (attempt + 1))) (attempt + 1) f'
      | (Ok (Some pdf), f') => (Ok (Some pdf), f')
      | (Throw err, f') => (Throw err, f')
      end
    else (Ok None, f).
Proof.
  destruct (Z.leb_spec attempt maxRetries) as [Hle | Hgt].
  - replace (Z.to_nat (maxRetries + 1 - attempt))
      with (S (Z.to_nat (maxRetries + 1 - (attempt + 1)))) by lia.
    apply for_loop_step.
  - replace (Z.to_nat (maxRetries + 1 - attempt)) with 0%nat by lia. reflexivity.
Qed.

(** Attempts that fail before the last one fall through to the next. *)
Lemma for_loop_failures (n : nat) (attempt : Z) (f : Frame) :
  attempt + Z.of_nat n <= maxRetries ->
  (forall i, (i < n)%nat -> exists err, try_outcome (e (launches (world f) + i)%nat) = inl err) ->
  exists f',
    for_loop e html options maxRetries n attempt f = (Ok None, f')
    /\ launches (world f') = (launches (world f) + n)%nat.
Proof.
  revert attempt f. induction n as [|n IH]; intros attempt f Hle Hfail.
  - exists f. cbn. split; [reflexivity | lia].
  - rewrite for_loop_step.
    destruct (attempt_body_spec e html options maxRetries attempt f)
      as (f1 & t1 & -> & Hl & _).
    destruct (Hfail 0%nat) as [err Herr]; [lia|]. rewrite Nat.add_0_r in Herr.
    unfold attempt_result. rewrite Herr.
    destruct (Z.eqb_spec attempt maxRetries) as [Heq|_]; [exfalso; lia|].
    destruct (IH (attempt + 1) f1) as (f' & -> & Hl'); [lia| |].
    + intros i Hi. destruct (Hfail (S i)) as [err' Herr']; [lia|].
      exists err'. rewrite Hl.
      replace (S (launches (world f)) + i)%nat with (launches (world f) + S i)%nat by lia.
      exact Herr'.
    + exists f'. split; [reflexivity|]. rewrite Hl', Hl. lia.
Qed.

(** The last iteration, and any iteration that succeeds, ends the loop. *)
Lemma for_loop_ends (r : nat) (attempt : Z) (f : Frame) :
  attempt_result maxRetries attempt (e (launches (world f))) <> Ok None ->
  exists f',
    for_loop e html options maxRetries (S r) attempt f
    = (attempt_result maxRetries attempt (e (launches (world f))), f')
    /\ launches (world f') = S (launches (world f)).
Proof.
  intros Hne. rewrite for_loop_step.
  destruct (attempt_body_spec e html options maxRetries attempt f)
    as (f1 & t1 & -> & Hl & _).
  exists f1. split; [|exact Hl].
  destruct (attempt_result _ _ _) as [[pdf|]|err]; [reflexivity|congruence|reflexivity].
Qed.

(** [n] failed attempts followed by one that ends the loop. *)
Lemma for_loop_failures_then (n m : nat) (f : Frame) :
  1 + Z.of_nat n <= maxRetries ->
  (forall i, (i < n)%nat -> exists err, try_outcome (e (launches (world f) + i)%nat) = inl err) ->
  attempt_result maxRetries (1 + Z.of_nat n) (e (launches (world f) + n)%nat) <> Ok None ->
  exists f',
    for_loop e html options maxRetries (n + S m) 1 f
    = (attempt_result maxRetries (1 + Z.of_nat n) (e (launches (world f) + n)%nat), f')
    /\ launches (world f') = (launches (world f) + S n)%nat.
Proof.
  intros Hle Hfail Hend. rewrite for_loop_app.
  destruct (for_loop_failures n 1 f Hle Hfail) as (f1 & -> & Hl1).
  rewrite <- Hl1 in Hend |- *.
  destruct (for_loop_ends m (1 + Z.of_nat n) f1 Hend) as (f' & -> & Hl').
  exists f'. split; [reflexivity|]. rewrite Hl', Hl1. lia.
Qed.

Lemma generatePDF_unfold (w : World) :
  generatePDF e html options maxRetries w
  = (fst (for_loop e html options maxRetries (Z.to_nat maxRetries) 1 (new_frame w)),
     world (snd (for_loop e html options maxRetries (Z.to_nat maxRetries) 1 (new_frame w)))).
Proof.
  unfold generatePDF. destruct (for_loop _ _ _ _ _ _ _) as [r f]. reflexivity.
Qed.

End scenarios.

(** C1.  When every attempt of a call with [maxRetries >= 1] fails,
    [generatePDF] throws the error of the last attempt.  By then it has
    called [puppeteer.launch] exactly [maxRetries] times, on consecutive
    sessions, and [browser.close] once on each browser it obtained; and
    the first [n] iterations, for every [n < maxRetries], end without a
    throw: nothing is raised before the last attempt has failed. *)
Theorem generatePDF_exhausts_attempts
  (e : Engine) (html options : JsVal) (maxRetries : Z) (w : World) (last : JsError) :
  1 <= maxRetries ->
  (forall k, 1 <= k <= maxRetries -> exists err, try_outcome (session_of e w k) = inl err) ->
  try_outcome (session_of e w maxRetries) = inl last ->
  exists w' tr,
    generatePDF e html options maxRetries w = (Throw last, w')
    /\ launches w' = (launches w + Z.to_nat maxRetries)%nat
    /\ events w' = events w ++ tr
    /\ launched tr = seq (launches w) (Z.to_nat maxRetries)
    /\ closed_browsers tr = launched_ok e (launches w) (Z.to_nat maxRetries)
    /\ (forall n, (n < Z.to_nat maxRetries)%nat ->
        fst (for_loop e html options maxRetries n 1 (new_frame w)) = Ok None).
Proof.
  intros Hmax Hfail Hlast. unfold session_of in *.
  set (n := Z.to_nat (maxRetries - 1)).
  assert (Hn : Z.to_nat maxRetries = (n + 1)%nat) by lia.
  assert (Hprefix : forall i, (i < n)%nat ->
             exists err, try_outcome (e (launches (world (new_frame w)) + i)%nat) = inl err).
  { intros i Hi. destruct (Hfail (Z.of_nat i + 1)) as [err Herr]; [lia|].
    exists err. cbn. rewrite <- Herr. do 2 f_equal. lia. }
  destruct (for_loop_failures_then e html options maxRetries n 0 (new_frame w))
    as (f' & Hrun & Hl'); [lia | exact Hprefix | |].
  { unfold attempt_result. cbn [new_frame world]. fold n in Hlast. rewrite Hlast.
    replace (1 + Z.of_nat n =? maxRetries) with true by lia. discriminate. }
  destruct (for_loop_run e html options maxRetries (Z.to_nat maxRetries) 1 (new_frame w))
    as (r & f'' & tr & k & Hrun' & Hk & Hl'' & He & T1 & T2 & _).
  rewrite Hn in *. rewrite Hrun in Hrun'. injection Hrun' as <- <-.
  cbn [new_frame world] in *.
  assert (k = (n + 1)%nat) as -> by lia.
  exists (world f'), tr. rewrite generatePDF_unfold, Hn, Hrun. cbn [fst snd].
  split_and!; try assumption.
  - unfold attempt_result. fold n in Hlast. rewrite Hlast.
    replace (1 + Z.of_nat n =? maxRetries) with true by lia. reflexivity.
  - intros m Hm.
    destruct (for_loop_failures e html options maxRetries m 1 (new_frame w)) as (g & -> & _);
      [lia | intros i Hi; apply Hprefix; lia | reflexivity].
Qed.

(** Two attempts: no page on the first session, no browser on the second. *)
Lemma generatePDF_exhausts_attempts_witness :
  exists w' tr,
    generatePDF page_then_launch_failure (JStr "<h1>Hello</h1>") JUndefined 2 boot
    = (Throw (mkError "Error" "Failed to launch the browser process"), w')
    /\ launches w' = (launches boot + Z.to_nat 2)%nat
    /\ events w' = events boot ++ tr
    /\ launched tr = seq (launches boot) (Z.to_nat 2)
    /\ closed_browsers tr = launched_ok page_then_launch_failure (launches boot) (Z.to_nat 2)
    /\ (forall n, (n < Z.to_nat 2)%nat ->
        fst (for_loop page_then_launch_failure (JStr "<h1>Hello</h1>") JUndefined 2 n 1
               (new_frame boot)) = Ok None).
Proof.
  apply generatePDF_exhausts_attempts.
  - lia.
  - intros k Hk. assert (k = 1 \/ k = 2) as [-> | ->] by lia; eexists; reflexivity.
  - reflexivity.
Defined.

(** C3.  When attempt [k] is the first whose export succeeds, the call
    returns the buffer of that attempt as it is, after exactly [k]
    launches, each browser obtained having been closed once; no further
    session is started. *)
Theorem generatePDF_returns_first_success
  (e : Engine) (html options : JsVal) (maxRetries : Z) (w : World) (k : Z) (pdf : Buffer) :
  1 <= k <= maxRetries ->
  (forall j, 1 <= j < k -> exists err, try_outcome (session_of e w j) = inl err) ->
  try_outcome (session_of e w k) = inr pdf ->
  exists w' tr,
    generatePDF e html options maxRetries w = (Ok (Some pdf), w')
    /\ launches w' = (launches w + Z.to_nat k)%nat
    /\ events w' = events w ++ tr
    /\ launched tr = seq (launches w) (Z.to_nat k)
    /\ closed_browsers tr = launched_ok e (launches w) (Z.to_nat k).
Proof.
  intros Hk Hfail Hok. unfold session_of in *.
  set (n := Z.to_nat (k - 1)) in *.
  assert (Hn : Z.to_nat maxRetries = (n + S (Z.to_nat (maxRetries - k)))%nat) by lia.
  destruct (for_loop_failures_then e html options maxRetries n (Z.to_nat (maxRetries - k))
              (new_frame w)) as (f' & Hrun & Hl'); [lia | | |].
  { intros i Hi. destruct (Hfail (Z.of_nat i + 1)) as [err Herr]; [lia|].
    exists err. cbn. rewrite <- Herr. do 2 f_equal. lia. }
  { unfold attempt_result. cbn [new_frame world]. rewrite Hok. discriminate. }
  destruct (for_loop_run e html options maxRetries (Z.to_nat maxRetries) 1 (new_frame w))
    as (r & f'' & tr & m & Hrun' & _ & Hl'' & He & T1 & T2 & _).
  rewrite Hn, Hrun in Hrun'. injection Hrun' as <- <-.
  cbn [new_frame world] in *.
  assert (m = Z.to_nat k) as -> by lia.
  exists (world f'), tr. rewrite generatePDF_unfold, Hn, Hrun. cbn [fst snd].
  split_and!; try assumption.
  unfold attempt_result. rewrite Hok. reflexivity.
Qed.

(** The export times out once and succeeds on the second attempt. *)
Lemma generatePDF_returns_first_success_witness :
  exists w' tr,
    generatePDF second_time_lucky (JStr "<h1>Hello</h1>") JUndefined 2 boot
    = (Ok (Some sample_pdf), w')
    /\ launches w' = (launches boot + Z.to_nat 2)%nat
    /\ events w' = events boot ++ tr
    /\ launched tr = seq (launches boot) (Z.to_nat 2)
    /\ closed_browsers tr = launched_ok second_time_lucky (launches boot) (Z.to_nat 2).
Proof.
  apply generatePDF_returns_first_success.
  - lia.
  - intros j Hj. assert (j = 1) as -> by lia. eexists; reflexivity.
  - reflexivity.
Defined.

(** C9.  With [maxRetries <= 0] the loop body never runs: nothing is
    launched, nothing is logged, nothing is thrown, and the call returns
    [undefined]. *)
Theorem generatePDF_without_attempts
  (e : Engine) (html options : JsVal) (maxRetries : Z) (w : World) :
  maxRetries <= 0 ->
  generatePDF e html options maxRetries w = (Ok None, w).
Proof.
  intros Hle. unfold generatePDF.
  replace (Z.to_nat maxRetries) with 0%nat by lia. reflexivity.
Qed.

(** [maxRetries] of 0 and of -3. *)
Lemma generatePDF_without_attempts_witness :
  generatePDF (always healthy) (JStr "<h1>Hello</h1>") JUndefined 0 boot = (Ok None, boot)
  /\ generatePDF (always healthy) (JStr "<h1>Hello</h1>") JUndefined (-3) boot = (Ok None, boot).
Proof.
  split; apply generatePDF_without_attempts; lia.
Defined.

(* ===================================================================== *)
(** ** Cleanup *)
(* ===================================================================== *)

Lemma leaked_nothing (w w' : World) :
  open_browsers w' ⊆ open_browsers w -> open_pages w' ⊆ open_pages w ->
  leaked w w' = (∅, ∅).
Proof.
  intros Hb Hp. unfold leaked. f_equal; set_solver.
Qed.

Lemma for_loop_tidy (e : Engine) (html options : JsVal) (maxRetries : Z)
  (n : nat) (attempt : Z) (f : Frame) :
  tidy e (world f) (world (snd (for_loop e html options maxRetries n attempt f))).
Proof.
  destruct (for_loop_run e html options maxRetries n attempt f)
    as (r & f' & tr & k & -> & _ & Hl & He & T1 & T2 & T3 & T4 & _ & _ & Hrel).
  exists tr, k. cbn [snd]. split_and!; try assumption.
  intros Hall. destruct (Hrel Hall). by apply leaked_nothing.
Qed.

(** C2, as amended.  Every attempt, and so every call, whatever its
    result, is [tidy]: [browser.close()] is called once on every browser
    that was launched, [page.isClosed()] on every page that was opened
    and [page.close()] on each of those found open.  Nothing opened by
    the attempt is left open provided the [close()] of each browser it
    launched takes effect; a [close()] that fails is swallowed, so the
    code can promise no more. *)
Theorem generatePDF_closes_what_it_opens
  (e : Engine) (html options : JsVal) (maxRetries : Z) :
  (forall attempt f,
      tidy e (world f) (world (snd (attempt_body e html options maxRetries attempt f))))
  /\ (forall w, tidy e w (snd (generatePDF e html options maxRetries w))).
Proof.
  split.
  - intros attempt f.
    pose proof (for_loop_tidy e html options maxRetries 1 attempt f) as H.
    rewrite for_loop_step in H.
    destruct (attempt_body _ _ _ _ _ _) as [[[pdf|]|err] f']; exact H.
  - intros w. rewrite generatePDF_unfold. cbn [snd].
    apply (for_loop_tidy e html options maxRetries _ 1 (new_frame w)).
Qed.

(** A failed and a successful attempt on sessions that close properly. *)
Lemma generatePDF_closes_what_it_opens_witness :
  leaked boot (snd (generatePDF second_time_lucky (JStr "<h1>Hello</h1>") JUndefined 2 boot))
  = (∅, ∅).
Proof.
  destruct (generatePDF_closes_what_it_opens second_time_lucky (JStr "<h1>Hello</h1>")
              JUndefined 2) as [_ H].
  destruct (H boot) as (tr & k & _ & _ & _ & _ & _ & _ & Hleak).
  apply Hleak. intros i _.
  destruct i as [|i]; reflexivity.
Defined.

(** C2 as stated fails where [browser.close()] rejects without releasing
    the browser: the call returns the buffer, [close] was called, and the
    browser is still open. *)
Lemma stuck_browser_stays_open :
  let run := generatePDF (always stuck_browser) (JStr "<h1>Hello</h1>") JUndefined 2 boot in
  fst run = Ok (Some sample_pdf)
  /\ closed_browsers (events (snd run)) = [0%nat]
  /\ leaked boot (snd run) = ({[0%nat]}, ∅)
  /\ leaked boot (snd run) <> (∅, ∅).
Proof.
  cbv zeta. split_and!.
  - vm_compute. reflexivity.
  - vm_compute. reflexivity.
  - vm_compute. reflexivity.
  - vm_compute. discriminate.
Qed.

Lemma for_loop_result_ext (e e' : Engine) (html options : JsVal) (maxRetries : Z) :
  (forall i, try_outcome (e i) = try_outcome (e' i)) ->
  forall (n : nat) (attempt : Z) (f f' : Frame),
    launches (world f) = launches (world f') ->
    fst (for_loop e html options maxRetries n attempt f)
    = fst (for_loop e' html options maxRetries n attempt f')
    /\ launches (world (snd (for_loop e html options maxRetries n attempt f)))
       = launches (world (snd (for_loop e' html options maxRetries n attempt f'))).
Proof.
  intros Hext. induction n as [|n IH]; intros attempt f f' Hl.
  - cbn. auto.
  - rewrite !for_loop_step.
    destruct (attempt_body_spec e html options maxRetries attempt f)
      as (f1 & t1 & -> & Hl1 & _).
    destruct (attempt_body_spec e' html options maxRetries attempt f')
      as (f1' & t1' & -> & Hl1' & _).
    unfold attempt_result. rewrite <- Hl, <- Hext.
    destruct (try_outcome (e (launches (world f)))) as [err|pdf]; cbn.
    + destruct (attempt =? maxRetries); cbn; [split; congruence|].
      apply IH. congruence.
    + split; congruence.
Qed.

(** C4.  Errors raised while closing are swallowed.  The [finally]
    block never throws; the completion of an attempt and its [lastError]
    are those of its [try]/[catch] part; and the result of a call and the
    number of attempts it makes do not depend on how [page.close] and
    [browser.close] behave. *)
Theorem cleanup_errors_are_swallowed
  (e : Engine) (html options : JsVal) (maxRetries : Z) :
  (forall f, fst (finally_block e f) = Ok tt)
  /\ (forall attempt f,
        let guarded := try_catch (try_block e html options maxRetries attempt)
                         (catch_block maxRetries attempt) (reset f) in
        let whole := attempt_body e html options maxRetries attempt f in
        fst whole = fst guarded /\ lastError (snd whole) = lastError (snd guarded))
  /\ (forall c w,
        let quiet := generatePDF e html options maxRetries w in
        let noisy := generatePDF (with_cleanup c e) html options maxRetries w in
        fst noisy = fst quiet /\ launches (snd noisy) = launches (snd quiet)).
Proof.
  split_and!.
  - intros f. destruct (finally_block_spec e f) as (f' & tr & -> & _). reflexivity.
  - intros attempt f. cbv zeta. rewrite attempt_body_unfold. unfold try_catch.
    destruct (try_block _ _ _ _ _ _) as [[a|err] f1].
    + destruct (finally_block_spec e f1) as (f3 & tr & -> & _ & _ & Hle & _). cbn. auto.
    + destruct (catch_block _ _ _ _) as [r2 f2].
      destruct (finally_block_spec e f2) as (f3 & tr & -> & _ & _ & Hle & _). cbn. auto.
  - intros c w. cbv zeta. rewrite !generatePDF_unfold. cbn [fst snd].
    apply for_loop_result_ext; reflexivity.
Qed.

(* ===================================================================== *)
(** ** Order of effects in a failed attempt *)
(* ===================================================================== *)




(* ===================================================================== *)
(** ** The options of the export *)
(* ===================================================================== *)

Lemma own_props_default (options : JsVal) :
  own_props (default_param options (JObj ∅)) = own_props options.
Proof. destruct options; reflexivity. Qed.

Lemma pdfOptions_set (options : JsVal) (k : string) (v : JsVal) :
  own_props options !! k = Some v ->
  pdfOptions (default_param options (JObj ∅)) !! k = Some v.
Proof.
  intros H. unfold pdfOptions. rewrite own_props_default.
  by apply lookup_union_Some_l.
Qed.

Lemma pdfOptions_unset (options : JsVal) (k : string) :
  own_props options !! k = None ->
  pdfOptions (default_param options (JObj ∅)) !! k = default_pdfOptions !! k.
Proof.
  intros H. unfold pdfOptions. rewrite own_props_default.
  by apply lookup_union_r.
Qed.

Lemma generatePDF_exports (e : Engine) (html options : JsVal) (maxRetries : Z) (w : World) :
  exists tr,
    events (snd (generatePDF e html options maxRetries w)) = events w ++ tr
    /\ Forall (eq (pdfOptions (default_param options (JObj ∅)))) (exports tr)
    /\ (1 <= maxRetries -> reaches_export (e (launches w)) = true -> exports tr <> []).
Proof.
  rewrite generatePDF_unfold. cbn [snd].
  destruct (for_loop_run e html options maxRetries (Z.to_nat maxRetries) 1 (new_frame w))
    as (r & f' & tr & k & Hrun & Hk & Hl & He & _ & _ & _ & _ & _ & T6 & _).
  rewrite Hrun. cbn [snd new_frame world] in *.
  exists tr. split; [exact He|]. rewrite T6. split.
  - apply Forall_forall. intros o Ho. apply list_elem_of_In, in_map_iff in Ho as (i & <- & _).
    reflexivity.
  - intros Hmax Hreach.
    destruct (Z.to_nat maxRetries) as [|n] eqn:Hn; [lia|].
    rewrite for_loop_step in Hrun.
    destruct (attempt_body_spec e html options maxRetries 1 (new_frame w))
      as (f1 & t1 & Hb & Hl1 & _).
    rewrite Hb in Hrun. cbn [new_frame world] in *.
    destruct k as [|k].
    + exfalso.
      destruct (attempt_result maxRetries 1 (e (launches w))) as [[pdf|]|err].
      * injection Hrun as _ <-. lia.
      * destruct (for_loop_run e html options maxRetries n (1 + 1) f1)
          as (r2 & f2 & tr2 & k2 & Hrun2 & _ & Hl2 & _).
        rewrite Hrun2 in Hrun. injection Hrun as _ <-. lia.
      * injection Hrun as _ <-. lia.
    + cbn [seq List.filter]. rewrite Hreach. discriminate.
Qed.

(** C6, as amended.  Every call of [page.pdf] gets the defaults
    overridden by the caller's options, and the export is reached
    whenever the first session gets as far.  The [timeout] of 30000 ms is
    one of the defaults: it is what the export gets when the caller's
    options have no [timeout] of their own, and the caller's value
    otherwise. *)
Theorem export_gets_merged_options
  (e : Engine) (html options : JsVal) (maxRetries : Z) (w : World) :
  let merged := pdfOptions (default_param options (JObj ∅)) in
  merged = own_props options ∪ default_pdfOptions
  /\ (exists tr,
        events (snd (generatePDF e html options maxRetries w)) = events w ++ tr
        /\ Forall (eq merged) (exports tr)
        /\ (1 <= maxRetries -> reaches_export (e (launches w)) = true -> exports tr <> []))
  /\ (own_props options !! "timeout" = None -> merged !! "timeout" = Some (num_of_Z 30000))
  /\ (forall v, own_props options !! "timeout" = Some v -> merged !! "timeout" = Some v).
Proof.
  cbv zeta. split_and!.
  - unfold pdfOptions. by rewrite own_props_default.
  - apply generatePDF_exports.
  - intros H. by rewrite pdfOptions_unset.
  - intros v H. by apply pdfOptions_set.
Qed.

(** Options without a [timeout]. *)
Lemma export_gets_merged_options_witness :
  pdfOptions (default_param (JObj {[ "landscape" := JBool true ]}) (JObj ∅)) !! "timeout"
  = Some (num_of_Z 30000).
Proof.
  destruct (export_gets_merged_options (always healthy) (JStr "<h1>Hello</h1>")
              (JObj {[ "landscape" := JBool true ]}) 2 boot) as (_ & _ & H & _).
  apply H. reflexivity.
Defined.

(** C6 as stated fails for options that carry a [timeout]: the export
    gets the caller's 0, not 30000. *)
Lemma caller_timeout_overrides :
  let options := JObj {[ "timeout" := num_of_Z 0 ]} in
  let run := generatePDF (always healthy) (JStr "<h1>Hello</h1>") options 2 boot in
  exists o,
    fst run = Ok (Some sample_pdf)
    /\ exports (events (snd run)) = [o]
    /\ o !! "timeout" = Some (num_of_Z 0)
    /\ o !! "timeout" <> Some (num_of_Z 30000).
Proof.
  cbv zeta. eexists. split_and!.
  - vm_compute. reflexivity.
  - vm_compute. reflexivity.
  - vm_compute. reflexivity.
  - vm_compute. discriminate.
Qed.

(** C7, as amended.  In a call whose first session gets as far as the
    export, [page.pdf] is called, and the options of every call of
    [page.pdf] are such that a top-level field the caller leaves unset
    has its default: [format] is "A4", [printBackground] is [true],
    [margin] is 1cm at the top, right, bottom and left.  A field the
    caller sets has the caller's value; so a [margin] the caller sets is
    passed as it is, and a side it leaves out is left out of what the
    export gets: the default of 1cm stands for the margin as a whole
    only. *)
Theorem export_option_defaults
  (e : Engine) (html options : JsVal) (maxRetries : Z) (w : World) :
  exists tr,
    events (snd (generatePDF e html options maxRetries w)) = events w ++ tr
    /\ (1 <= maxRetries -> reaches_export (e (launches w)) = true -> exports tr <> [])
    /\ forall o : gmap string JsVal,
        o ∈ exports tr ->
        (own_props options !! "format" = None -> o !! "format" = Some (JStr "A4"))
        /\ (own_props options !! "printBackground" = None ->
            o !! "printBackground" = Some (JBool true))
        /\ (own_props options !! "margin" = None ->
            exists m : gmap string JsVal,
              o !! "margin" = Some (JObj m)
              /\ m !! "top" = Some (JStr "1cm") /\ m !! "right" = Some (JStr "1cm")
              /\ m !! "bottom" = Some (JStr "1cm") /\ m !! "left" = Some (JStr "1cm"))
        /\ (forall k v, own_props options !! k = Some v -> o !! k = Some v)
        /\ (forall (m : gmap string JsVal) (side : string),
              own_props options !! "margin" = Some (JObj m) ->
              m !! side = None ->
              o !! "margin" = Some (JObj m)
              /\ field (default JUndefined (o !! "margin")) side = JUndefined).
Proof.
  destruct (generatePDF_exports e html options maxRetries w) as (tr & He & Hall & Hsome).
  exists tr. split; [exact He|]. split; [exact Hsome|].
  intros o Ho. rewrite Forall_forall in Hall. rewrite <- (Hall o Ho). split_and!.
  - intros H. by rewrite pdfOptions_unset.
  - intros H. by rewrite pdfOptions_unset.
  - intros H. eexists. rewrite pdfOptions_unset by done.
    split; [reflexivity|]. split_and!; reflexivity.
  - intros k v H. by apply pdfOptions_set.
  - intros m side Hm Hside. rewrite (pdfOptions_set options "margin" (JObj m) Hm).
    split; [reflexivity|]. cbn. by rewrite Hside.
Qed.

(** The caller sets the format only: the export is made, with the
    caller's format and the default for the background. *)
Lemma export_option_defaults_witness :
  exists tr o,
    events (snd (generatePDF (always healthy) (JStr "<h1>Hello</h1>")
                   (JObj {[ "format" := JStr "Letter" ]}) 2 boot))
    = events boot ++ tr
    /\ o ∈ exports tr
    /\ o !! "printBackground" = Some (JBool true)
    /\ o !! "format" = Some (JStr "Letter").
Proof.
  destruct (export_option_defaults (always healthy) (JStr "<h1>Hello</h1>")
              (JObj {[ "format" := JStr "Letter" ]}) 2 boot) as (tr & He & Hsome & Hall).
  destruct (exports tr) as [|o rest] eqn:Hex.
  - exfalso. apply Hsome; [lia | reflexivity | reflexivity].
  - exists tr, o. split; [exact He|]. rewrite Hex.
    split; [apply list_elem_of_here|].
    destruct (Hall o (list_elem_of_here o rest)) as (_ & Hbg & _ & Hset & _).
    split; [apply Hbg; reflexivity | apply Hset; reflexivity].
Defined.

(** C7 as stated fails for a caller that sets one side of the margin: the
    sides it leaves unset do not get their 1cm, the export gets the
    caller's margin with the top only. *)
Lemma partial_margin_gets_no_defaults :
  let margin := JObj {[ "top" := JStr "2cm" ]} in
  let options := JObj {[ "margin" := margin ]} in
  let run := generatePDF (always healthy) (JStr "<h1>Hello</h1>") options 2 boot in
  field margin "right" = JUndefined
  /\ fst run = Ok (Some sample_pdf)
  /\ exists o,
      exports (events (snd run)) = [o]
      /\ o !! "margin" = Some margin
      /\ field (default JUndefined (o !! "margin")) "right" = JUndefined
      /\ field (default JUndefined (o !! "margin")) "right" <> JStr "1cm".
Proof.
  cbv zeta. split; [reflexivity|]. split; [vm_compute; reflexivity|].
  eexists. split_and!.
  - vm_compute. reflexivity.
  - vm_compute. reflexivity.
  - vm_compute. reflexivity.
  - vm_compute. discriminate.
Qed.

(** The merge is shallow: a margin given by the caller replaces the
    default margin as a whole. *)
Example margin_is_replaced_whole :
  pdfOptions (JObj {[ "margin" := JObj {[ "top" := JStr "2cm" ]} ]}) !! "margin"
  = Some (JObj {[ "top" := JStr "2cm" ]}).
Proof. reflexivity. Qed.

(* ===================================================================== *)
(** ** The handler *)
(* ===================================================================== *)

Lemma post_rejects (e : Engine) (req_body : JsVal) (w : World) :
  readable req_body = true ->
  truthy (field req_body "html") = false ->
  post_html_to_pdf e req_body (incoming w) = (Ok tt, {| x_world := w; res := rejected |}).
Proof.
  intros Hr Hf. unfold_handler. rewrite Hr. cbn. rewrite Hf. cbn. reflexivity.
Qed.

(** Every call of [generatePDF] with at least one attempt to make calls
    [puppeteer.launch]. *)
Lemma generatePDF_launches (e : Engine) (html options : JsVal) (maxRetries : Z) (w : World) :
  1 <= maxRetries ->
  (launches w < launches (snd (generatePDF e html options maxRetries w)))%nat.
Proof.
  intros Hmax. rewrite generatePDF_unfold. cbn [snd].
  destruct (Z.to_nat maxRetries) as [|n] eqn:Hn; [lia|].
  rewrite for_loop_step.
  destruct (attempt_body_spec e html options maxRetries 1 (new_frame w))
    as (f1 & t1 & -> & Hl1 & _).
  cbn [new_frame world] in Hl1.
  destruct (attempt_result _ _ _) as [[pdf|]|err]; cbn [snd]; try lia.
  destruct (for_loop_run e html options maxRetries n (1 + 1) f1)
    as (r2 & f2 & tr2 & k2 & -> & _ & Hl2 & _).
  cbn [snd]. lia.
Qed.

(** C8.  A request whose body has no [html] field, or an empty one, is
    answered with status 400 and a JSON body that carries an [error] and
    a [usage] field.  The world is left as it was, whereas any call of
    [generatePDF] by the handler would have changed it: [generatePDF] is
    not called. *)
Theorem missing_html_is_rejected (e : Engine) (req_body : JsVal) (w : World) :
  readable req_body = true ->
  field req_body "html" = JUndefined \/ field req_body "html" = JStr EmptyString ->
  exists answer : gmap string JsVal,
    post_html_to_pdf e req_body (incoming w)
    = (Ok tt, {| x_world := w;
                 res := {| status := 400;
                           headers := {[ "Content-Type" :=
                                           JStr "application/json; charset=utf-8" ]};
                           body := Some (JsonBody (JObj answer)) |} |})
    /\ answer !! "error" = Some (JStr "HTML content is required")
    /\ answer !! "usage" = Some (JStr usage_hint)
    /\ (forall html options,
          snd (generatePDF e html options 2 w) <> w).
Proof.
  intros Hr Hhtml. eexists. split; [|split_and!].
  - rewrite post_rejects; [reflexivity | exact Hr |].
    destruct Hhtml as [-> | ->]; reflexivity.
  - reflexivity.
  - reflexivity.
  - intros html options Heq.
    pose proof (generatePDF_launches e html options 2 w) as Hl.
    rewrite Heq in Hl. lia.
Qed.

(** The bodies [{}] and [{ html: '' }]. *)
Lemma missing_html_is_rejected_witness :
  status (res (snd (post_html_to_pdf (always healthy) (JObj ∅) (incoming boot)))) = 400
  /\ x_world (snd (post_html_to_pdf (always healthy) (JObj {[ "html" := JStr EmptyString ]})
                     (incoming boot))) = boot.
Proof.
  split.
  - destruct (missing_html_is_rejected (always healthy) (JObj ∅) boot)
      as (answer & -> & _); [reflexivity | left; reflexivity | reflexivity].
  - destruct (missing_html_is_rejected (always healthy) (JObj {[ "html" := JStr EmptyString ]}) boot)
      as (answer & -> & _); [reflexivity | right; reflexivity | reflexivity].
Defined.

Lemma post_status (e : Engine) (req_body : JsVal) (w : World) :
  readable req_body = true ->
  truthy (field req_body "html") = true ->
  status (res (snd (post_html_to_pdf e req_body (incoming w)))) <> 400.
Proof.
  intros Hr Ht. unfold_handler. rewrite Hr. cbn. rewrite Ht. cbn.
  assert (Hrd : readable (field req_body "html") = true).
  { destruct (field req_body "html"); try discriminate Ht; reflexivity. }
  rewrite Hrd. cbn.
  destruct (toString_throws (field (field req_body "html") "length")); cbn; [discriminate|].
  destruct (generatePDF _ _ _ _ _) as [[[pdf|]|err] w']; cbn; discriminate.
Qed.

Lemma post_forwards (e : Engine) (req_body : JsVal) (w : World) :
  readable req_body = true ->
  truthy (field req_body "html") = true ->
  toString_throws (field (field req_body "html") "length") = false ->
  let html := field req_body "html" in
  let options := default_param (field req_body "options") (JObj ∅) in
  let x := snd (post_html_to_pdf e req_body (incoming w)) in
  let g := generatePDF e html options 2 (emit_event (converting html) w) in
  launches (x_world x) = launches (snd g)
  /\ (exists tail, events (x_world x) = events (snd g) ++ tail)
  /\ (forall pdf, fst g = Ok (Some pdf) ->
      status (res x) = 200 /\ body (res x) = Some (RawBody pdf))
  /\ (forall err, fst g = Throw err -> status (res x) = 500).
Proof.
  intros Hr Ht Hs. cbv zeta. unfold_handler. rewrite Hr. cbn. rewrite Ht. cbn.
  assert (Hrd : readable (field req_body "html") = true).
  { destruct (field req_body "html"); try discriminate Ht; reflexivity. }
  rewrite Hrd. cbn. rewrite Hs. cbn.
  change (emit_event _ w) with (emit_event (converting (field req_body "html")) w).
  destruct (generatePDF _ _ _ _ _) as [[[pdf|]|err] w']; cbn.
  - split_and!; [reflexivity | exists []; by rewrite app_nil_r | | discriminate].
    intros ? [= <-]. auto.
  - split_and!; [reflexivity | eexists; reflexivity | discriminate | discriminate].
  - split_and!; [reflexivity | eexists; reflexivity | discriminate | reflexivity].
Qed.

(** C10, as amended.  The validation is the truthiness of [html]: the
    answer is 400 exactly when [html] is falsy.  A truthy [html] of any
    type, whose [length] the log line can print, is passed to
    [generatePDF] as it is, reaches [page.setContent] when the first
    session gets a page, and the answer is 200 with the buffer or 500
    with the error, as [generatePDF] decides. *)
Theorem validation_is_truthiness (e : Engine) (req_body : JsVal) (w : World) :
  readable req_body = true ->
  let html := field req_body "html" in
  let options := default_param (field req_body "options") (JObj ∅) in
  let x := snd (post_html_to_pdf e req_body (incoming w)) in
  let g := generatePDF e html options 2 (emit_event (converting html) w) in
  (status (res x) = 400 <-> truthy html = false)
  /\ (truthy html = true ->
      toString_throws (field html "length") = false ->
      launches (x_world x) = launches (snd g)
      /\ (exists tail, events (x_world x) = events (snd g) ++ tail)
      /\ (forall pdf, fst g = Ok (Some pdf) ->
          status (res x) = 200 /\ body (res x) = Some (RawBody pdf))
      /\ (forall err, fst g = Throw err -> status (res x) = 500)
      /\ (page_ok (e (launches w)) = true ->
          exists tr, events (x_world x) = events w ++ tr /\ head (contents tr) = Some html)).
Proof.
  intros Hr. cbv zeta. split.
  - split.
    + intros H400. destruct (truthy (field req_body "html")) eqn:Ht; [|reflexivity].
      exfalso. by apply (post_status e req_body w Hr Ht).
    + intros Hf. by rewrite post_rejects.
  - intros Ht Hs.
    destruct (post_forwards e req_body w Hr Ht Hs) as (Hl & (tail & He) & Hok & Herr).
    split_and!; try assumption; [by exists tail|].
    intros Hpage. rewrite He. clear Hl He Hok Herr.
    rewrite generatePDF_unfold. cbn [snd].
    destruct (for_loop_run e (field req_body "html")
                (default_param (field req_body "options") (JObj ∅)) 2 (Z.to_nat 2) 1
                (new_frame (emit_event (converting (field req_body "html")) w)))
      as (r & f' & tr & k & Hrun & _ & Hl & He & _ & _ & _ & _ & T5 & _).
    pose proof (generatePDF_launches e (field req_body "html")
                  (default_param (field req_body "options") (JObj ∅)) 2
                  (emit_event (converting (field req_body "html")) w)) as Hlt.
    rewrite generatePDF_unfold, Hrun in Hlt. rewrite Hrun.
    cbn [snd new_frame world emit_event launches events] in *.
    exists ([converting (field req_body "html")] ++ tr ++ tail).
    split.
    + rewrite He, <- !app_assoc. reflexivity.
    + destruct k as [|k]; [lia|].
      unfold contents in *. rewrite !proj_app, T5.
      unfold opened_pages. cbn [seq List.filter]. rewrite Hpage. reflexivity.
Qed.

(** The number 42 as [html] reaches [page.setContent]. *)
Lemma validation_is_truthiness_witness :
  let req_body := JObj {[ "html" := num_of_Z 42 ]} in
  let x := snd (post_html_to_pdf (always healthy) req_body (incoming boot)) in
  exists tr, events (x_world x) = events boot ++ tr /\ head (contents tr) = Some (num_of_Z 42).
Proof.
  cbv zeta.
  destruct (validation_is_truthiness (always healthy) (JObj {[ "html" := num_of_Z 42 ]}) boot)
    as (_ & H); [reflexivity|].
  destruct H as (_ & _ & _ & _ & Hc); [reflexivity | reflexivity |].
  apply Hc. reflexivity.
Defined.

(** C10 as stated fails for a truthy object whose [length] cannot be
    printed: the log line throws, the answer is 500 and [generatePDF] is
    not called. *)
Lemma unprintable_length_is_not_forwarded :
  let html := field unprintable_length "html" in
  let x := snd (post_html_to_pdf (always healthy) unprintable_length (incoming boot)) in
  readable unprintable_length = true
  /\ truthy html = true
  /\ status (res x) = 500
  /\ launches (x_world x) = launches boot
  /\ contents (events (x_world x)) = []
  /\ (forall options, launches (snd (generatePDF (always healthy) html options 2 boot))
                      <> launches (x_world x)).
Proof.
  cbv zeta. split_and!; try (vm_compute; reflexivity).
  intros options. 
  pose proof (generatePDF_launches (always healthy) (field unprintable_length "html")
                options 2 boot) as Hl.
  change (launches (x_world _)) with 0%nat. cbn [boot launches] in Hl. lia.
Qed.
(* ===================================================================== *)
(** ** What a call of generatePDF can come to *)
(* ===================================================================== *)

Section outcomes.
Variable e : Engine.
Variables html options : JsVal.
Variable maxRetries : Z.

Lemma for_loop_cases (n : nat) (attempt : Z) (f : Frame) :
  attempt + Z.of_nat n = maxRetries + 1 ->
  (0 < n)%nat ->
  let sid := launches (world f) in
  (exists i pdf f',
      (i < n)%nat
      /\ for_loop e html options maxRetries n attempt f = (Ok (Some pdf), f')
      /\ try_outcome (e (sid + i)%nat) = inr pdf
      /\ (forall j, (j < i)%nat -> exists err, try_outcome (e (sid + j)%nat) = inl err)
      /\ launches (world f') = (sid + S i)%nat)
  \/ (exists err f',
         for_loop e html options maxRetries n attempt f = (Throw err, f')
         /\ try_outcome (e (sid + (n - 1))%nat) = inl err
         /\ (forall j, (j < n)%nat -> exists err', try_outcome (e (sid + j)%nat) = inl err')
         /\ launches (world f') = (sid + n)%nat).
Proof.
  revert attempt f. induction n as [|n IH]; intros attempt f Hsum Hpos sid; [lia|].
  rewrite for_loop_step.
  destruct (attempt_body_spec e html options maxRetries attempt f)
    as (f1 & t1 & -> & Hl1 & _).
  fold sid in Hl1 |- *. unfold attempt_result.
  destruct (try_outcome (e sid)) as [err|pdf] eqn:Hout.
  - destruct (Z.eqb_spec attempt maxRetries) as [Heq|Hne].
    + right. assert (n = 0%nat) as -> by lia.
      exists err, f1. split_and!; [reflexivity | | | lia].
      * by replace (sid + (1 - 1))%nat with sid by lia.
      * intros j Hj. assert (j = 0%nat) as -> by lia.
        exists err. by replace (sid + 0)%nat with sid by lia.
    + destruct (IH (attempt + 1) f1) as [Hs | Ht]; [lia | lia | |].
      * destruct Hs as (i & pdf & f' & Hi & -> & Hok & Hbefore & Hl').
        left. exists (S i), pdf, f'. rewrite Hl1 in *.
        split_and!; [lia | reflexivity | | | lia].
        -- by replace (sid + S i)%nat with (S sid + i)%nat by lia.
        -- intros [|j] Hj.
           ++ exists err. by replace (sid + 0)%nat with sid by lia.
           ++ destruct (Hbefore j) as [err' Herr']; [lia|].
              exists err'. by replace (sid + S j)%nat with (S sid + j)%nat by lia.
      * destruct Ht as (err' & f' & -> & Hlast & Hall & Hl').
        right. exists err', f'. rewrite Hl1 in *.
        split_and!; [reflexivity | | | lia].
        -- by replace (sid + (S n - 1))%nat with (S sid + (n - 1))%nat by lia.
        -- intros [|j] Hj.
           ++ exists err. by replace (sid + 0)%nat with sid by lia.
           ++ destruct (Hall j) as [err'' Herr'']; [lia|].
              exists err''. by replace (sid + S j)%nat with (S sid + j)%nat by lia.
  - left. exists 0%nat, pdf, f1.
    split_and!; [lia | reflexivity | | intros j Hj; lia | lia].
    by replace (sid + 0)%nat with sid by lia.
Qed.

End outcomes.

(** X1.  A call with [maxRetries >= 1] never returns [undefined], and its
    result tells what happened: a buffer is the export of an attempt [k]
    before which every attempt failed, after [k] launches; a thrown error
    is the failure of attempt [maxRetries], after all [maxRetries]
    attempts have failed. *)
Theorem generatePDF_result_cases
  (e : Engine) (html options : JsVal) (maxRetries : Z) (w : World) :
  1 <= maxRetries ->
  let run := generatePDF e html options maxRetries w in
  (exists k pdf,
      1 <= k <= maxRetries
      /\ fst run = Ok (Some pdf)
      /\ try_outcome (session_of e w k) = inr pdf
      /\ (forall j, 1 <= j < k -> exists err, try_outcome (session_of e w j) = inl err)
      /\ launches (snd run) = (launches w + Z.to_nat k)%nat)
  \/ (exists err,
         fst run = Throw err
         /\ try_outcome (session_of e w maxRetries) = inl err
         /\ (forall j, 1 <= j <= maxRetries ->
             exists err', try_outcome (session_of e w j) = inl err')
         /\ launches (snd run) = (launches w + Z.to_nat maxRetries)%nat).
Proof.
  intros Hmax. cbv zeta. rewrite generatePDF_unfold. cbn [fst snd]. unfold session_of.
  destruct (for_loop_cases e html options maxRetries (Z.to_nat maxRetries) 1 (new_frame w))
    as [Hs | Ht]; [lia | lia | |]; cbn [new_frame world] in *.
  - destruct Hs as (i & pdf & f' & Hi & -> & Hok & Hbefore & Hl').
    left. exists (Z.of_nat i + 1), pdf. cbn [fst snd].
    split_and!; [lia | lia | reflexivity | | | lia].
    + by replace (Z.to_nat (Z.of_nat i + 1 - 1)) with i by lia.
    + intros j Hj. destruct (Hbefore (Z.to_nat (j - 1))) as [err Herr]; [lia|]. by exists err.
  - destruct Ht as (err & f' & -> & Hlast & Hall & Hl').
    right. exists err. cbn [fst snd].
    split_and!; [reflexivity | | | exact Hl'].
    + by replace (Z.to_nat (maxRetries - 1)) with (Z.to_nat maxRetries - 1)%nat by lia.
    + intros j Hj. destruct (Hall (Z.to_nat (j - 1))) as [err' Herr']; [lia|]. by exists err'.
Qed.

(** One attempt, which succeeds. *)
Lemma generatePDF_result_cases_witness :
  exists k pdf,
    1 <= k <= 1
    /\ fst (generatePDF (always healthy) (JStr "<p>x</p>") JUndefined 1 boot) = Ok (Some pdf).
Proof.
  destruct (generatePDF_result_cases (always healthy) (JStr "<p>x</p>") JUndefined 1 boot)
    as [(k & pdf & Hk & Hr & _) | (err & Hr & _)]; [lia | |].
  - exists k, pdf. split; assumption.
  - exfalso. vm_compute in Hr. discriminate Hr.
Defined.

(** X2.  A call launches at most [maxRetries] browsers, one after the
    other on consecutive sessions, and at least one when
    [maxRetries >= 1]. *)
Theorem generatePDF_launch_bound
  (e : Engine) (html options : JsVal) (maxRetries : Z) (w : World) :
  let w' := snd (generatePDF e html options maxRetries w) in
  (launches w <= launches w' <= launches w + Z.to_nat maxRetries)%nat
  /\ (1 <= maxRetries -> (launches w < launches w')%nat)
  /\ (exists tr, events w' = events w ++ tr
                 /\ launched tr = seq (launches w) (launches w' - launches w)).
Proof.
  cbv zeta. split; [|split].
  - rewrite generatePDF_unfold. cbn [snd].
    destruct (for_loop_run e html options maxRetries (Z.to_nat maxRetries) 1 (new_frame w))
      as (r & f' & tr & k & -> & Hk & Hl & _).
    cbn [snd new_frame world] in *. lia.
  - apply generatePDF_launches.
  - rewrite generatePDF_unfold. cbn [snd].
    destruct (for_loop_run e html options maxRetries (Z.to_nat maxRetries) 1 (new_frame w))
      as (r & f' & tr & k & -> & Hk & Hl & He & T1 & _).
    cbn [snd new_frame world] in *. exists tr. split; [exact He|].
    rewrite T1. f_equal. lia.
Qed.

Lemma generatePDF_launch_bound_witness :
  (launches boot
   < launches (snd (generatePDF second_time_lucky (JStr "<p>x</p>") JUndefined 2 boot)))%nat.
Proof.
  destruct (generatePDF_launch_bound second_time_lucky (JStr "<p>x</p>") JUndefined 2 boot)
    as (_ & H & _).
  apply H. lia.
Defined.
(* ===================================================================== *)
(** ** Waits and warnings *)
(* ===================================================================== *)

Section effects.
Variable e : Engine.
Variables html options : JsVal.
Variable maxRetries : Z.

Lemma try_block_effects (attempt : Z) (f : Frame) :
  let s := e (launches (world f)) in
  exists f1 tr,
    try_block e html options maxRetries attempt f = (try_result s, f1)
    /\ events (world f1) = events (world f) ++ tr
    /\ timeouts tr = (if reaches_export s then [2000] else [])
    /\ warnings tr = [].
Proof.
  intros s. subst s.
  unfold try_result, try_outcome, reaches_export, page_ok, launch_ok.
  destruct f as [w le br pg]. unfold_blocks. cbn.
  split_session e w Hs.
  all: run_blocks Hs.
  all: eexists _, _; split; [reflexivity|]; cbn.
  all: split; [close_trace|]; cbn.
  all: split; reflexivity.
Qed.

Lemma finally_block_effects (f : Frame) :
  exists f' tr,
    finally_block e f = (Ok tt, f')
    /\ events (world f') = events (world f) ++ tr
    /\ timeouts tr = []
    /\ warnings tr
       = match page f with
         | Some p => if bool_decide (p ∈ open_pages (world f))
                     then close_warning "Error closing page:" (s_pageClose (e p)) else []
         | None => []
         end
         ++ match browser f with
            | Some b => close_warning "Error closing browser:" (s_browserClose (e b))
            | None => []
            end.
Proof.
  destruct f as [w le br pg]. unfold close_warning. unfold_blocks. cbn.
  destruct pg as [p|], br as [b|]; cbn.
  all: repeat match goal with
         | |- context [bool_decide ?P] => destruct (bool_decide_reflect P); cbn
         | |- context [close_error ?c] => destruct (close_error c); cbn
         end.
  all: try (exfalso; set_solver).
  all: eexists _, _; split; [reflexivity|]; cbn.
  all: split; [close_trace|]; cbn.
  all: split; reflexivity.
Qed.

Lemma attempt_body_effects (attempt : Z) (f : Frame) :
  let s := e (launches (world f)) in
  exists f' tr,
    attempt_body e html options maxRetries attempt f
    = (attempt_result maxRetries attempt s, f')
    /\ launches (world f') = S (launches (world f))
    /\ events (world f') = events (world f) ++ tr
    /\ timeouts tr = session_timeouts maxRetries attempt s
    /\ warnings tr = session_warnings s.
Proof.
  intros s.
  destruct (attempt_body_spec e html options maxRetries attempt f)
    as (f' & tr & Hbody & Hl & He & _).
  exists f', tr. split; [exact Hbody|]. split; [exact Hl|]. split; [exact He|].
  rewrite attempt_body_unfold in Hbody.
  destruct (try_block_spec e html options maxRetries attempt (reset f))
    as (f1 & t1 & Htry & _ & He1 & _ & Hb1 & Hp1 & _ & Hop1 & _).
  destruct (try_block_effects attempt (reset f)) as (f1' & t1' & Htry' & He1' & W1 & W2).
  rewrite Htry in Htry'. injection Htry' as <-.
  rewrite He1 in He1'. apply app_inv_head in He1'. subst t1'.
  cbn [reset world browser page] in *. fold s in Htry, Hb1, Hp1, Hop1, W1 |- *.
  rewrite Htry in Hbody.
  assert (exists f2 t2,
             match try_result s with
             | Ok a => (Ok a, f1)
             | Throw err => catch_block maxRetries attempt err f1
             end = (attempt_result maxRetries attempt s, f2)
             /\ events (world f2) = events (world f1) ++ t2
             /\ open_pages (world f2) = open_pages (world f1)
             /\ browser f2 = browser f1 /\ page f2 = page f1
             /\ timeouts t2 = match try_outcome s with
                              | inl _ => if attempt =? maxRetries then [] else [2000]
                              | inr _ => []
                              end
             /\ warnings t2 = [])
    as (f2 & t2 & Hcatch & He2 & Hop2 & Hb2 & Hp2 & V1 & V2).
  { unfold try_result, attempt_result. destruct (try_outcome s) as [err|pdf].
    - rewrite catch_block_spec. eexists _, (catch_events maxRetries attempt err).
      split; [reflexivity|]. cbn. unfold catch_events.
      destruct (attempt =? maxRetries); split_and!; reflexivity.
    - exists f1, []. rewrite app_nil_r. split_and!; reflexivity. }
  rewrite Hcatch in Hbody.
  destruct (finally_block_effects f2) as (f3 & t3 & Hfin & He3 & U1 & U2).
  rewrite Hfin in Hbody. injection Hbody as <-.
  rewrite He3, He2, He1, <- !app_assoc in He. apply app_inv_head in He. subst tr.
  unfold timeouts, warnings in *. rewrite !proj_app, W1, W2, V1, V2, U1, U2.
  rewrite Hp2, Hp1, Hb2, Hb1, Hop2, Hop1.
  unfold session_timeouts, session_warnings, page_ok.
  rewrite app_nil_r. split; [reflexivity|]. cbn [app].
  destruct (launch_ok s);
    destruct (match s_newPage s with Some _ => false | None => true end);
    destruct (s_page_closed_early s); cbn [andb negb].
  all: repeat match goal with |- context [bool_decide ?P] =>
                destruct (bool_decide_reflect P) end.
  all: try reflexivity.
  all: exfalso; match goal with
                | H : _ ∈ _ |- _ => clear - H; set_solver
                | H : ~ _ |- _ => clear - H; set_solver
                end.
Qed.

Lemma session_timeouts_facts (attempt : Z) (s : Session) :
  Forall (eq 2000) (session_timeouts maxRetries attempt s)
  /\ (length (session_timeouts maxRetries attempt s) <= 2)%nat
  /\ (attempt_result maxRetries attempt s <> Ok None ->
      (length (session_timeouts maxRetries attempt s) <= 1)%nat).
Proof.
  unfold session_timeouts, attempt_result.
  destruct (reaches_export s), (try_outcome s) as [err|pdf], (attempt =? maxRetries);
    cbn; split_and!; try lia; try congruence; repeat constructor.
Qed.

Lemma for_loop_effects (n : nat) (attempt : Z) (f : Frame) :
  let sid := launches (world f) in
  exists r f' tr k,
    for_loop e html options maxRetries n attempt f = (r, f')
    /\ (k <= n)%nat
    /\ launches (world f') = (sid + k)%nat
    /\ events (world f') = events (world f) ++ tr
    /\ warnings tr = flat_map (fun i => session_warnings (e i)) (seq sid k)
    /\ Forall (eq 2000) (timeouts tr)
    /\ (length (timeouts tr) <= 2 * k)%nat
    /\ (r <> Ok None -> (length (timeouts tr) + 1 <= 2 * k)%nat).
Proof.
  revert attempt f. induction n as [|n IH]; intros attempt f sid.
  - exists (Ok None), f, [], 0%nat. cbn. rewrite app_nil_r.
    split_and!; try done; try lia.
  - rewrite for_loop_step.
    destruct (attempt_body_effects attempt f) as (f1 & t1 & -> & Hl1 & He1 & W1 & W2).
    fold sid in Hl1, W1, W2 |- *.
    destruct (session_timeouts_facts attempt (e sid)) as (F1 & F2 & F3).
    rewrite <- W1 in F1, F2, F3.
    destruct (attempt_result maxRetries attempt (e sid)) as [[pdf|]|err] eqn:Hres.
    + exists (Ok (Some pdf)), f1, t1, 1%nat. cbn [seq flat_map]. rewrite app_nil_r.
      split_and!; try done; try lia. intros _. specialize (F3 ltac:(discriminate)). lia.
    + destruct (IH (attempt + 1) f1)
        as (r & f' & t2 & k & -> & Hk & Hl2 & He2 & V2 & G1 & G2 & G3).
      rewrite Hl1 in *.
      exists r, f', (t1 ++ t2), (S k). cbn [seq flat_map].
      unfold warnings, timeouts in *. rewrite !proj_app, length_app, V2, W2.
      split_and!; try reflexivity; try lia.
      * rewrite He2, He1, app_assoc. reflexivity.
      * apply Forall_app. split; assumption.
      * intros Hr. specialize (G3 Hr). lia.
    + exists (Throw err), f1, t1, 1%nat. cbn [seq flat_map]. rewrite app_nil_r.
      split_and!; try done; try lia. intros _. specialize (F3 ltac:(discriminate)). lia.
Qed.

End effects.

(** X3.  Every wait of a call is one of 2000 ms, and a call with
    [maxRetries >= 1] makes at most [2 * maxRetries - 1] of them: a
    settling delay per attempt and a pause between attempts. *)
Theorem generatePDF_waits
  (e : Engine) (html options : JsVal) (maxRetries : Z) (w : World) :
  1 <= maxRetries ->
  exists tr,
    events (snd (generatePDF e html options maxRetries w)) = events w ++ tr
    /\ Forall (eq 2000) (timeouts tr)
    /\ Z.of_nat (length (timeouts tr)) <= 2 * maxRetries - 1.
Proof.
  intros Hmax. rewrite generatePDF_unfold. cbn [snd].
  destruct (for_loop_effects e html options maxRetries (Z.to_nat maxRetries) 1 (new_frame w))
    as (r & f' & tr & k & Hrun & Hk & _ & He & _ & Hall & _ & Hlen).
  destruct (for_loop_cases e html options maxRetries (Z.to_nat maxRetries) 1 (new_frame w))
    as [(i & pdf & g & _ & Hrun' & _) | (err & g & Hrun' & _)]; [lia | lia | |].
  all: rewrite Hrun in Hrun'; injection Hrun' as -> <-; rewrite Hrun; cbn [snd].
  all: exists tr; split; [exact He|]; split; [exact Hall|].
  all: specialize (Hlen ltac:(discriminate)); lia.
Qed.

(** Two failing attempts that both get as far as the export: three waits. *)
Lemma generatePDF_waits_witness :
  exists tr,
    events (snd (generatePDF (always export_times_out) (JStr "<p>x</p>") JUndefined 2 boot))
    = events boot ++ tr
    /\ Forall (eq 2000) (timeouts tr)
    /\ Z.of_nat (length (timeouts tr)) <= 2 * 2 - 1.
Proof.
  apply generatePDF_waits. lia.
Defined.

(** X4.  The warnings of a call are exactly those of the sessions it
    launched, in order: for each session one [console.warn] with the
    message of the error if [page.close] was called and rejected, then
    one if [browser.close] was called and rejected.  No rejected close
    goes unreported and nothing else is warned about. *)
Theorem generatePDF_warnings
  (e : Engine) (html options : JsVal) (maxRetries : Z) (w : World) :
  let w' := snd (generatePDF e html options maxRetries w) in
  exists tr,
    events w' = events w ++ tr
    /\ warnings tr
       = flat_map (fun i => session_warnings (e i))
           (seq (launches w) (launches w' - launches w)).
Proof.
  cbv zeta. rewrite generatePDF_unfold. cbn [snd].
  destruct (for_loop_effects e html options maxRetries (Z.to_nat maxRetries) 1 (new_frame w))
    as (r & f' & tr & k & -> & _ & Hl & He & Hw & _).
  cbn [snd new_frame world] in *. exists tr. split; [exact He|].
  rewrite Hw. do 2 f_equal. lia.
Qed.

Example stuck_browser_is_reported :
  warnings (events (snd (generatePDF (always stuck_browser) (JStr "<p>x</p>") JUndefined 2 boot)))
  = [("Error closing browser:", [JStr "Protocol error: Connection closed"])].
Proof. vm_compute. reflexivity. Qed.

(* ===================================================================== *)
(** ** End to end: requests *)
(* ===================================================================== *)

(** What the handler does once the validation has let [html] through. *)
Lemma post_after_validation (e : Engine) (req_body : JsVal) (w : World) :
  readable req_body = true ->
  truthy (field req_body "html") = true ->
  toString_throws (field (field req_body "html") "length") = false ->
  let html := field req_body "html" in
  let options := default_param (field req_body "options") (JObj ∅) in
  match generatePDF e html options 2 (emit_event (converting html) w) with
  | (Ok (Some pdf), w') =>
      post_html_to_pdf e req_body (incoming w)
      = (Ok tt, {| x_world := w'; res := pdf_response content_disposition pdf |})
  | (Ok None, w') =>
      fst (post_html_to_pdf e req_body (incoming w)) = Ok tt
      /\ x_world (snd (post_html_to_pdf e req_body (incoming w)))
         = emit_event
             (Console ERROR "Server error:"
                [err_val (TypeError "Cannot read properties of undefined (reading 'length')")])
             w'
      /\ status (res (snd (post_html_to_pdf e req_body (incoming w)))) = 500
  | (Throw err, w') =>
      post_html_to_pdf e req_body (incoming w)
      = (Ok tt, {| x_world := emit_event (Console ERROR "Server error:" [err_val err]) w';
                   res := failure_response "Failed to generate PDF" (message err) |})
  end.
Proof.
  intros Hr Ht Hs. cbv zeta. unfold_handler. rewrite Hr. cbn. rewrite Ht. cbn.
  assert (Hrd : readable (field req_body "html") = true).
  { destruct (field req_body "html"); try discriminate Ht; reflexivity. }
  rewrite Hrd. cbn. rewrite Hs. cbn.
  change (emit_event _ w) with (emit_event (converting (field req_body "html")) w).
  destruct (generatePDF _ _ _ _ _) as [[[pdf|]|err] w']; cbn; try reflexivity.
  split_and!; reflexivity.
Qed.

Lemma post_unreadable (e : Engine) (req_body : JsVal) (w : World) :
  readable req_body = false ->
  exists err,
    post_html_to_pdf e req_body (incoming w)
    = (Ok tt, {| x_world := emit_event (Console ERROR "Server error:" [err_val err]) w;
                 res := failure_response "Failed to generate PDF" (message err) |}).
Proof.
  intros Hr. exists (TypeError "Cannot read properties of undefined or null").
  unfold_handler. rewrite Hr. reflexivity.
Qed.

Lemma post_unprintable (e : Engine) (req_body : JsVal) (w : World) :
  readable req_body = true ->
  truthy (field req_body "html") = true ->
  toString_throws (field (field req_body "html") "length") = true ->
  exists err,
    post_html_to_pdf e req_body (incoming w)
    = (Ok tt, {| x_world := emit_event (Console ERROR "Server error:" [err_val err]) w;
                 res := failure_response "Failed to generate PDF" (message err) |}).
Proof.
  intros Hr Ht Hs. exists (TypeError "Cannot convert object to primitive value").
  unfold_handler. rewrite Hr. cbn. rewrite Ht. cbn.
  assert (Hrd : readable (field req_body "html") = true).
  { destruct (field req_body "html"); try discriminate Ht; reflexivity. }
  rewrite Hrd. cbn. rewrite Hs. reflexivity.
Qed.

(** Where a request leaves the world: as it was but for console output,
    or as the one call of [generatePDF] left it, but for console output. *)
Lemma post_world (e : Engine) (req_body : JsVal) (w : World) :
  let x := snd (post_html_to_pdf e req_body (incoming w)) in
  fst (post_html_to_pdf e req_body (incoming w)) = Ok tt
  /\ exists w1,
      (w1 = w \/ exists html options,
                  w1 = snd (generatePDF e html options 2 (emit_event (converting html) w)))
      /\ launches (x_world x) = launches w1
      /\ open_browsers (x_world x) = open_browsers w1
      /\ open_pages (x_world x) = open_pages w1.
Proof.
  cbv zeta.
  destruct (readable req_body) eqn:Hr.
  2: { destruct (post_unreadable e req_body w Hr) as (err & ->).
       split; [reflexivity|]. exists w. split; [by left|]. split_and!; reflexivity. }
  destruct (truthy (field req_body "html")) eqn:Ht.
  2: { rewrite post_rejects by assumption.
       split; [reflexivity|]. exists w. split; [by left|]. split_and!; reflexivity. }
  destruct (toString_throws (field (field req_body "html") "length")) eqn:Hs.
  { destruct (post_unprintable e req_body w Hr Ht Hs) as (err & ->).
    split; [reflexivity|]. exists w. split; [by left|]. split_and!; reflexivity. }
  pose proof (post_after_validation e req_body w Hr Ht Hs) as H. cbv zeta in H.
  destruct (generatePDF _ _ _ _ _) as [[[pdf|]|err] w'] eqn:Eg.
  all: assert (Hg : exists html options,
                 w' = snd (generatePDF e html options 2 (emit_event (converting html) w)))
         by (eexists _, _; rewrite Eg; reflexivity).
  - rewrite H. split; [reflexivity|]. exists w'. split; [by right|]. split_and!; reflexivity.
  - destruct H as (H1 & H2 & _). split; [exact H1|]. exists w'. split; [by right|].
    rewrite H2. split_and!; reflexivity.
  - rewrite H. split; [reflexivity|]. exists w'. split; [by right|]. split_and!; reflexivity.
Qed.

Lemma generatePDF_defined
  (e : Engine) (html options : JsVal) (maxRetries : Z) (w : World) :
  1 <= maxRetries ->
  fst (generatePDF e html options maxRetries w) <> Ok None.
Proof.
  intros Hmax. rewrite generatePDF_unfold. cbn [fst].
  destruct (for_loop_cases e html options maxRetries (Z.to_nat maxRetries) 1 (new_frame w))
    as [(i & pdf & g & _ & -> & _) | (err & g & -> & _)]; [lia | lia | |]; discriminate.
Qed.

(** X5.  The handler never rejects and always sends one of three
    answers: 200 with a buffer and its length as [Content-Length], 400
    with the usage message, or 500 with the JSON error
    "Failed to generate PDF" and some details. *)
Theorem post_always_answers (e : Engine) (req_body : JsVal) (w : World) :
  exists x,
    post_html_to_pdf e req_body (incoming w) = (Ok tt, x)
    /\ ((exists pdf, res x = pdf_response content_disposition pdf)
        \/ res x = rejected
        \/ (exists details, res x = failure_response "Failed to generate PDF" details)).
Proof.
  destruct (readable req_body) eqn:Hr.
  2: { destruct (post_unreadable e req_body w Hr) as (err & ->). eauto 6. }
  destruct (truthy (field req_body "html")) eqn:Ht.
  2: { rewrite post_rejects by assumption. eauto 6. }
  destruct (toString_throws (field (field req_body "html") "length")) eqn:Hs.
  { destruct (post_unprintable e req_body w Hr Ht Hs) as (err & ->). eauto 6. }
  pose proof (post_after_validation e req_body w Hr Ht Hs) as H. cbv zeta in H.
  pose proof (generatePDF_defined e (field req_body "html")
                (default_param (field req_body "options") (JObj ∅)) 2
                (emit_event (converting (field req_body "html")) w)) as Hdef.
  destruct (generatePDF _ _ _ _ _) as [[[pdf|]|err] w'].
  - rewrite H. eauto 6.
  - exfalso. apply Hdef; [lia | reflexivity].
  - rewrite H. eauto 6.
Qed.

(** X6.  A request makes the engine launch a browser exactly when its
    body has properties, its [html] is truthy and the length of [html]
    can be printed; every other request leaves the launch count as it
    was. *)
Theorem post_uses_engine_iff (e : Engine) (req_body : JsVal) (w : World) :
  let html := field req_body "html" in
  let x := snd (post_html_to_pdf e req_body (incoming w)) in
  (launches w < launches (x_world x))%nat
  <-> readable req_body = true
      /\ truthy html = true
      /\ toString_throws (field html "length") = false.
Proof.
  cbv zeta.
  destruct (readable req_body) eqn:Hr.
  2: { destruct (post_unreadable e req_body w Hr) as (err & ->). cbn.
       split; [lia | intros (? & _); discriminate]. }
  destruct (truthy (field req_body "html")) eqn:Ht.
  2: { rewrite post_rejects by assumption. cbn.
       split; [lia | intros (_ & ? & _); discriminate]. }
  destruct (toString_throws (field (field req_body "html") "length")) eqn:Hs.
  { destruct (post_unprintable e req_body w Hr Ht Hs) as (err & ->). cbn.
    split; [lia | intros (_ & _ & ?); discriminate]. }
  split; [auto|]. intros _.
  pose proof (post_after_validation e req_body w Hr Ht Hs) as H. cbv zeta in H.
  pose proof (generatePDF_launches e (field req_body "html")
                (default_param (field req_body "options") (JObj ∅)) 2
                (emit_event (converting (field req_body "html")) w)) as Hl.
  destruct (generatePDF _ _ _ _ _) as [[[pdf|]|err] w']; cbn [snd emit_event launches] in Hl.
  - rewrite H. cbn. lia.
  - destruct H as (_ & -> & _). cbn. lia.
  - rewrite H. cbn. lia.
Qed.

(** X7.  Once a request is through the validation, its answer is that of
    the one call [generatePDF(html, options)] it makes: 200 with exactly
    the buffer returned, or 500 with the message of the error thrown as
    details, the error being logged.  The PDF headers are not on the
    error answer. *)
Theorem post_relays_generatePDF (e : Engine) (req_body : JsVal) (w : World) :
  readable req_body = true ->
  truthy (field req_body "html") = true ->
  toString_throws (field (field req_body "html") "length") = false ->
  let html := field req_body "html" in
  let options := default_param (field req_body "options") (JObj ∅) in
  let g := generatePDF e html options 2 (emit_event (converting html) w) in
  (exists pdf,
      fst g = Ok (Some pdf)
      /\ post_html_to_pdf e req_body (incoming w)
         = (Ok tt, {| x_world := snd g; res := pdf_response content_disposition pdf |}))
  \/ (exists err,
         fst g = Throw err
         /\ post_html_to_pdf e req_body (incoming w)
            = (Ok tt,
               {| x_world := emit_event (Console ERROR "Server error:" [err_val err]) (snd g);
                  res := failure_response "Failed to generate PDF" (message err) |})).
Proof.
  intros Hr Ht Hs. cbv zeta.
  pose proof (post_after_validation e req_body w Hr Ht Hs) as H. cbv zeta in H.
  pose proof (generatePDF_defined e (field req_body "html")
                (default_param (field req_body "options") (JObj ∅)) 2
                (emit_event (converting (field req_body "html")) w)) as Hdef.
  destruct (generatePDF _ _ _ _ _) as [[[pdf|]|err] w']; cbn [fst snd].
  - left. eauto.
  - exfalso. apply Hdef; [lia | reflexivity].
  - right. eauto.
Qed.

Lemma post_relays_generatePDF_witness :
  post_html_to_pdf (always healthy) (JObj {[ "html" := JStr "<p>x</p>" ]}) (incoming boot)
  = (Ok tt,
     {| x_world := snd (generatePDF (always healthy) (JStr "<p>x</p>") (JObj ∅) 2
                          (emit_event (converting (JStr "<p>x</p>")) boot));
        res := pdf_response content_disposition sample_pdf |}).
Proof.
  destruct (post_relays_generatePDF (always healthy) (JObj {[ "html" := JStr "<p>x</p>" ]}) boot)
    as [(pdf & Hg & H) | (err & Hg & _)]; [reflexivity | reflexivity | reflexivity | |].
  - vm_compute in Hg. injection Hg as <-. exact H.
  - exfalso. vm_compute in Hg. discriminate Hg.
Defined.

(** X8.  A request launches at most two browsers, whatever its body and
    whatever the engine does. *)
Theorem post_launch_bound (e : Engine) (req_body : JsVal) (w : World) :
  let x := snd (post_html_to_pdf e req_body (incoming w)) in
  (launches w <= launches (x_world x) <= launches w + 2)%nat.
Proof.
  cbv zeta.
  destruct (post_world e req_body w) as (_ & w1 & Hw1 & Hl & _). rewrite Hl.
  destruct Hw1 as [-> | (html & options & ->)]; [lia|].
  rewrite generatePDF_unfold. cbn [snd].
  destruct (for_loop_run e html options 2 (Z.to_nat 2) 1
              (new_frame (emit_event (converting html) w)))
    as (r & f' & tr & k & -> & Hk & Hl' & _).
  cbn [snd new_frame world emit_event launches] in *. lia.
Qed.

(** X9.  Whatever the request and its answer, the request leaves no
    browser and no page open that was not open before, provided
    [browser.close()] takes effect on each browser that was launched for
    it: the sessions started between the request's arrival and its
    answer.  Nothing is asked of a session the request does not reach. *)
Theorem post_leaves_nothing_open (e : Engine) (req_body : JsVal) (w : World) :
  let x := snd (post_html_to_pdf e req_body (incoming w)) in
  (forall i, (launches w <= i < launches (x_world x))%nat -> releases (e i) = true) ->
  leaked w (x_world x) = (∅, ∅).
Proof.
  cbv zeta.
  destruct (post_world e req_body w) as (_ & w1 & Hw1 & Hl & Hob & Hop).
  rewrite Hl. intros Hrel. unfold leaked. rewrite Hob, Hop.
  destruct Hw1 as [-> | (html & options & ->)].
  - f_equal; set_solver.
  - rewrite generatePDF_unfold in Hrel |- *. cbn [snd] in *.
    destruct (for_loop_run e html options 2 (Z.to_nat 2) 1
                (new_frame (emit_event (converting html) w)))
      as (r & f' & tr & k & Hrun & Hk & Hl' & _ & _ & _ & _ & _ & _ & _ & Hsub).
    rewrite Hrun in Hrel |- *.
    cbn [snd new_frame world emit_event launches open_browsers open_pages] in *.
    destruct Hsub as [Hb Hp]; [intros i Hi; apply Hrel; lia|].
    clear - Hb Hp. f_equal; set_solver.
Qed.

(** The first session serves the request; the second, whose browser
    would stay open, is never started. *)
Lemma post_leaves_nothing_open_witness :
  leaked boot
    (x_world (snd (post_html_to_pdf healthy_then_stuck (JObj {[ "html" := JStr "<p>x</p>" ]})
                     (incoming boot))))
  = (∅, ∅).
Proof.
  apply (post_leaves_nothing_open healthy_then_stuck (JObj {[ "html" := JStr "<p>x</p>" ]}) boot).
  intros i Hi.
  assert (Hone : launches (x_world (snd (post_html_to_pdf healthy_then_stuck
                    (JObj {[ "html" := JStr "<p>x</p>" ]}) (incoming boot)))) = 1%nat)
    by (vm_compute; reflexivity).
  rewrite Hone in Hi. cbn [boot launches] in Hi.
  assert (i = 0%nat) as -> by lia. reflexivity.
Defined.

(* ===================================================================== *)
(** ** End to end: the test endpoint *)
(* ===================================================================== *)

(** The template as the source has it: 683 characters around a
    timestamp of 24. *)
Example sampleHtml_length :
  String.length (sampleHtml "2024-01-01T00:00:00.000Z") = 683%nat.
Proof. reflexivity. Qed.

Lemma test_pdf_after (e : Engine) (now : string) (w : World) :
  match generatePDF e (JStr (sampleHtml now)) JUndefined 2
          (emit_event (Console LOG "Generating test PDF" []) w) with
  | (Ok (Some pdf), w') =>
      get_test_pdf e now (incoming w)
      = (Ok tt, {| x_world := w'; res := pdf_response test_content_disposition pdf |})
  | (Ok None, w') => True
  | (Throw err, w') =>
      get_test_pdf e now (incoming w)
      = (Ok tt, {| x_world := emit_event (Console ERROR "Test PDF error:" [err_val err]) w';
                   res := failure_response "Failed to generate test PDF" (message err) |})
  end.
Proof.
  unfold get_test_pdf. unfold_handler. cbn.
  destruct (generatePDF _ _ _ _ _) as [[[pdf|]|err] w']; cbn; try reflexivity; exact I.
Qed.

(** X10.  [GET /test-pdf] always answers, and its answer is that of the
    one call [generatePDF(sampleHtml)] it makes: 200 with exactly the
    buffer returned, as the attachment [test-document.pdf], or 500 with
    "Failed to generate test PDF" and the message of the error thrown. *)
Theorem test_pdf_relays_generatePDF (e : Engine) (now : string) (w : World) :
  let g := generatePDF e (JStr (sampleHtml now)) JUndefined 2
             (emit_event (Console LOG "Generating test PDF" []) w) in
  (exists pdf,
      fst g = Ok (Some pdf)
      /\ get_test_pdf e now (incoming w)
         = (Ok tt, {| x_world := snd g; res := pdf_response test_content_disposition pdf |}))
  \/ (exists err,
         fst g = Throw err
         /\ get_test_pdf e now (incoming w)
            = (Ok tt,
               {| x_world := emit_event (Console ERROR "Test PDF error:" [err_val err]) (snd g);
                  res := failure_response "Failed to generate test PDF" (message err) |})).
Proof.
  cbv zeta. pose proof (test_pdf_after e now w) as H.
  pose proof (generatePDF_defined e (JStr (sampleHtml now)) JUndefined 2
                (emit_event (Console LOG "Generating test PDF" []) w)) as Hdef.
  destruct (generatePDF _ _ _ _ _) as [[[pdf|]|err] w']; cbn [fst snd].
  - left. eauto.
  - exfalso. apply Hdef; [lia | reflexivity].
  - right. eauto.
Qed.

(** X11.  Serving [GET /test-pdf] launches one or two browsers; every
    page gets the sample document with the timestamp of the request, and
    every export gets exactly the default options, [timeout] of 30000
    included. *)
Theorem test_pdf_uses_defaults (e : Engine) (now : string) (w : World) :
  let x := snd (get_test_pdf e now (incoming w)) in
  (launches w < launches (x_world x) <= launches w + 2)%nat
  /\ exists tr,
      events (x_world x) = events w ++ tr
      /\ Forall (eq (JStr (sampleHtml now))) (contents tr)
      /\ Forall (eq default_pdfOptions) (exports tr).
Proof.
  cbv zeta. pose proof (test_pdf_after e now w) as H.
  pose proof (generatePDF_defined e (JStr (sampleHtml now)) JUndefined 2
                (emit_event (Console LOG "Generating test PDF" []) w)) as Hdef.
  pose proof (generatePDF_unfold e (JStr (sampleHtml now)) JUndefined 2
                (emit_event (Console LOG "Generating test PDF" []) w)) as Hunf.
  destruct (for_loop_run e (JStr (sampleHtml now)) JUndefined 2 (Z.to_nat 2) 1
              (new_frame (emit_event (Console LOG "Generating test PDF" []) w)))
    as (r & f' & tr & k & Hrun & Hk & Hl & He & _ & _ & _ & _ & T5 & T6 & _).
  pose proof (generatePDF_launches e (JStr (sampleHtml now)) JUndefined 2
                (emit_event (Console LOG "Generating test PDF" []) w)) as Hlt.
  rewrite Hunf, Hrun in Hlt. rewrite Hrun in Hunf.
  cbn [fst snd new_frame world emit_event launches events] in *.
  assert (Hc : Forall (eq (JStr (sampleHtml now))) (contents tr)).
  { rewrite T5. apply Forall_forall. intros h Hh.
    apply list_elem_of_In, in_map_iff in Hh as (i & <- & _). reflexivity. }
  assert (Hx : Forall (eq default_pdfOptions) (exports tr)).
  { rewrite T6. apply Forall_forall. intros o Ho.
    apply list_elem_of_In, in_map_iff in Ho as (i & <- & _). reflexivity. }
  rewrite Hunf in H, Hdef.
  destruct r as [[pdf|]|err]; cbn [fst] in Hdef.
  - rewrite H. cbn [snd x_world]. split; [lia|].
    exists ([Console LOG "Generating test PDF" []] ++ tr).
    rewrite He, <- app_assoc. unfold contents, exports in *. rewrite !proj_app.
    split_and!; [reflexivity | exact Hc | exact Hx].
  - exfalso. apply Hdef; [lia | reflexivity].
  - rewrite H. cbn [snd x_world emit_event launches events]. split; [lia|].
    exists ([Console LOG "Generating test PDF" []] ++ tr
            ++ [Console ERROR "Test PDF error:" [err_val err]]).
    rewrite He, <- !app_assoc. unfold contents, exports in *. rewrite !proj_app.
    cbn [omap app]. rewrite !app_nil_r.
    split_and!; [reflexivity | exact Hc | exact Hx].
Qed.

(* ===================================================================== *)
(** ** The keys of what the export receives *)
(* ===================================================================== *)

(** X12.  In a call whose first session gets as far as the export,
    [page.pdf] is called; and what every call of [page.pdf] receives has
    exactly the caller's own keys plus [format], [printBackground],
    [margin] and [timeout].  When the caller's options have nothing to
    spread, as [undefined], [null], a boolean or a number have, it
    receives exactly the defaults. *)
Theorem export_keys
  (e : Engine) (html options : JsVal) (maxRetries : Z) (w : World) :
  exists tr,
    events (snd (generatePDF e html options maxRetries w)) = events w ++ tr
    /\ (1 <= maxRetries -> reaches_export (e (launches w)) = true -> exports tr <> [])
    /\ forall o : gmap string JsVal,
        o ∈ exports tr ->
        dom o = dom (own_props options)
                  ∪ {[ "format"; "printBackground"; "margin"; "timeout" ]}
        /\ (own_props options = ∅ -> o = default_pdfOptions)
        /\ (match options with
            | JUndefined | JNull | JBool _ | JNum _ => o = default_pdfOptions
            | _ => True
            end).
Proof.
  destruct (generatePDF_exports e html options maxRetries w) as (tr & He & Hall & Hsome).
  exists tr. split; [exact He|]. split; [exact Hsome|].
  intros o Ho. rewrite Forall_forall in Hall. rewrite <- (Hall o Ho).
  unfold pdfOptions. rewrite own_props_default.
  assert (Hempty : own_props options = ∅ -> own_props options ∪ default_pdfOptions
                                             = default_pdfOptions).
  { intros ->. apply (left_id_L ∅ (∪)). }
  split_and!.
  - rewrite dom_union_L. f_equal.
  - exact Hempty.
  - destruct options; try exact I; by apply Hempty.
Qed.

(** A call with [null] for options: the export is made, with exactly
    the defaults. *)
Lemma export_keys_witness :
  exists tr,
    events (snd (generatePDF (always healthy) (JStr "<h1>Hello</h1>") JNull 2 boot))
    = events boot ++ tr
    /\ default_pdfOptions ∈ exports tr.
Proof.
  destruct (export_keys (always healthy) (JStr "<h1>Hello</h1>") JNull 2 boot)
    as (tr & He & Hsome & Hall).
  exists tr. split; [exact He|].
  destruct (exports tr) as [|o rest] eqn:Hex.
  - exfalso. apply Hsome; [lia | reflexivity | reflexivity].
  - destruct (Hall o (list_elem_of_here o rest)) as (_ & _ & ->).
    apply list_elem_of_here.
Defined.

(* ===================================================================== *)
(** ** The export comes last *)
(* ===================================================================== *)

Lemma exports_prepared_app (html : JsVal) (t1 t2 : list Event) :
  exports_prepared html t1 -> exports_prepared html t2 -> exports_prepared html (t1 ++ t2).
Proof.
  intros H1 H2 i sid o Hi.
  destruct (lookup_app_Some t1 t2 i (PdfExport sid o)) as [Hsplit _].
  destruct (Hsplit Hi) as [Hl | (Hge & Hr)].
  - destruct (H1 i sid o Hl) as (j & k & Hjk & Hj & Hk).
    exists j, k. split; [exact Hjk|].
    split; apply lookup_app_l_Some; assumption.
  - destruct (H2 _ sid o Hr) as (j & k & Hjk & Hj & Hk).
    exists (length t1 + j)%nat, (length t1 + k)%nat. split; [lia|].
    split; rewrite lookup_app_r by lia.
    + by replace (length t1 + j - length t1)%nat with j by lia.
    + by replace (length t1 + k - length t1)%nat with k by lia.
Qed.

Lemma exports_prepared_none (html : JsVal) (tr : list Event) :
  exports tr = [] -> exports_prepared html tr.
Proof.
  intros Hnone i sid o Hi. exfalso.
  apply list_elem_of_lookup_2 in Hi.
  assert (Hin : o ∈ exports tr).
  { unfold exports. apply list_elem_of_omap. exists (PdfExport sid o). by split. }
  rewrite Hnone in Hin. by apply not_elem_of_nil in Hin.
Qed.

Section prepared.
Variable e : Engine.
Variables html options : JsVal.
Variable maxRetries : Z.

Lemma try_block_prepared (attempt : Z) (f : Frame) :
  exists f1 tr,
    try_block e html options maxRetries attempt f
    = (try_result (e (launches (world f))), f1)
    /\ events (world f1) = events (world f) ++ tr
    /\ exports_prepared html tr.
Proof.
  unfold try_result, try_outcome.
  destruct f as [w le br pg]. unfold_blocks. cbn.
  split_session e w Hs.
  all: run_blocks Hs.
  all: eexists _, _; split; [reflexivity|]; cbn.
  all: split; [close_trace|].
  all: intros i sid o Hi.
  all: repeat (destruct i as [|i]; [try discriminate Hi | cbn in Hi; try discriminate Hi]).
  all: injection Hi as <- <-; exists 4%nat, 5%nat; split_and!; [lia | lia | reflexivity | reflexivity].
Qed.

Lemma attempt_body_prepared (attempt : Z) (f : Frame) :
  exists tr,
    events (world (snd (attempt_body e html options maxRetries attempt f)))
    = events (world f) ++ tr
    /\ exports_prepared html tr.
Proof.
  rewrite attempt_body_unfold.
  destruct (try_block_prepared attempt (reset f)) as (f1 & t1 & -> & He1 & P1).
  cbn [reset world] in He1.
  set (r2f2 := match try_result _ with
               | Ok a => (Ok a, f1)
               | Throw err => catch_block maxRetries attempt err f1
               end).
  assert (exists t2, events (world (snd r2f2)) = events (world f1) ++ t2 /\ exports t2 = [])
    as (t2 & He2 & P2).
  { subst r2f2. destruct (try_result _) as [a|err].
    - exists []. by rewrite app_nil_r.
    - rewrite catch_block_spec. exists (catch_events maxRetries attempt err).
      split; [reflexivity|]. unfold catch_events. by destruct (attempt =? maxRetries). }
  destruct r2f2 as [r2 f2]. cbn [snd] in He2.
  destruct (finally_block_spec e f2) as (f3 & t3 & -> & _ & He3 & _ & _ & P3 & _).
  cbn [snd]. exists (t1 ++ t2 ++ t3).
  split; [rewrite He3, He2, He1, <- !app_assoc; reflexivity|].
  apply exports_prepared_app; [exact P1|].
  apply exports_prepared_app; by apply exports_prepared_none.
Qed.

Lemma for_loop_prepared (n : nat) (attempt : Z) (f : Frame) :
  exists tr,
    events (world (snd (for_loop e html options maxRetries n attempt f)))
    = events (world f) ++ tr
    /\ exports_prepared html tr.
Proof.
  revert attempt f. induction n as [|n IH]; intros attempt f.
  - exists []. cbn. rewrite app_nil_r. split; [reflexivity|]. by apply exports_prepared_none.
  - rewrite for_loop_step.
    destruct (attempt_body_prepared attempt f) as (t1 & He1 & P1).
    destruct (attempt_body _ _ _ _ _ _) as [[[pdf|]|err] f1]; cbn [snd] in *.
    + exists t1. auto.
    + destruct (IH (attempt + 1) f1) as (t2 & He2 & P2).
      exists (t1 ++ t2). split; [rewrite He2, He1, app_assoc; reflexivity|].
      by apply exports_prepared_app.
    + exists t1. auto.
Qed.

End prepared.

(** X13.  In every call, each [page.pdf] is made on a page whose content
    was set to [html] before, with a wait of 2000 ms in between: the
    export never runs on an unloaded page and never skips the settling
    delay. *)
Theorem generatePDF_exports_prepared
  (e : Engine) (html options : JsVal) (maxRetries : Z) (w : World) :
  exists tr,
    events (snd (generatePDF e html options maxRetries w)) = events w ++ tr
    /\ exports_prepared html tr.
Proof.
  rewrite generatePDF_unfold. cbn [snd].
  apply (for_loop_prepared e html options maxRetries _ 1 (new_frame w)).
Qed.

(** X14.  Whatever the request, the pages it loads get the [html] of its
    body as it is, and the exports it makes get the [options] of its
    body spread over the defaults, unfiltered. *)
Theorem post_passes_body_on (e : Engine) (req_body : JsVal) (w : World) :
  let x := snd (post_html_to_pdf e req_body (incoming w)) in
  exists tr,
    events (x_world x) = events w ++ tr
    /\ Forall (eq (field req_body "html")) (contents tr)
    /\ Forall (eq (own_props (field req_body "options") ∪ default_pdfOptions)) (exports tr).
Proof.
  cbv zeta.
  destruct (readable req_body) eqn:Hr.
  2: { destruct (post_unreadable e req_body w Hr) as (err & ->).
       eexists. split; [reflexivity|]. split; constructor. }
  destruct (truthy (field req_body "html")) eqn:Ht.
  2: { rewrite post_rejects by assumption. exists []. cbn. rewrite app_nil_r.
       split; [reflexivity|]. split; constructor. }
  destruct (toString_throws (field (field req_body "html") "length")) eqn:Hs.
  { destruct (post_unprintable e req_body w Hr Ht Hs) as (err & ->).
    eexists. split; [reflexivity|]. split; constructor. }
  pose proof (post_after_validation e req_body w Hr Ht Hs) as H. cbv zeta in H.
  set (html := field req_body "html") in *.
  set (options := default_param (field req_body "options") (JObj ∅)) in *.
  pose proof (generatePDF_unfold e html options 2 (emit_event (converting html) w)) as Hunf.
  destruct (for_loop_run e html options 2 (Z.to_nat 2) 1
              (new_frame (emit_event (converting html) w)))
    as (r & f' & tr & k & Hrun & _ & _ & He & _ & _ & _ & _ & T5 & T6 & _).
  rewrite Hrun in Hunf. rewrite Hunf in H.
  cbn [fst snd new_frame world emit_event events] in *.
  assert (Hc : Forall (eq html) (contents tr)).
  { rewrite T5. apply Forall_forall. intros h Hh.
    apply list_elem_of_In, in_map_iff in Hh as (i & <- & _). reflexivity. }
  assert (Hx : Forall (eq (own_props (field req_body "options") ∪ default_pdfOptions))
                 (exports tr)).
  { rewrite T6. apply Forall_forall. intros o Ho.
    apply list_elem_of_In, in_map_iff in Ho as (i & <- & _).
    subst options. unfold pdfOptions. by rewrite !own_props_default. }
  destruct r as [[pdf|]|err].
  - rewrite H. cbn [snd x_world]. exists ([converting html] ++ tr).
    rewrite He, <- app_assoc. unfold contents, exports in *. rewrite !proj_app.
    split_and!; [reflexivity | exact Hc | exact Hx].
  - destruct H as (_ & -> & _). cbn [emit_event events].
    exists ([converting html] ++ tr ++ [Console ERROR "Server error:"
              [err_val (TypeError "Cannot read properties of undefined (reading 'length')")]]).
    rewrite He, <- !app_assoc. unfold contents, exports in *. rewrite !proj_app.
    cbn [omap app]. rewrite !app_nil_r.
    split_and!; [reflexivity | exact Hc | exact Hx].
  - rewrite H. cbn [snd x_world emit_event events].
    exists ([converting html] ++ tr ++ [Console ERROR "Server error:" [err_val err]]).
    rewrite He, <- !app_assoc. unfold contents, exports in *. rewrite !proj_app.
    cbn [omap app]. rewrite !app_nil_r.
    split_and!; [reflexivity | exact Hc | exact Hx].
Qed.
